(** * The fiber tester controller (fiber_tester.py)

    A shallow embedding of [FiberTesterController]: the selection state,
    the Morse table, the sequence compiler and the six operations of the
    request/response interface, followed by the properties of the
    specification that were checked against it. *)

From Stdlib Require Import ZArith NArith List String Ascii Bool Lia PrimFloat.
From Stdlib Require Import DecimalString.
Import ListNotations.

Local Open Scope Z_scope.

(** ** The fragment of Python the controller relies on *)

Module Py.

(** A Python [str] is a sequence of Unicode code points. *)
Definition str := list N.

(** An ASCII literal of the source, as a [str]. *)
Definition lit (s : string) : str :=
  map N_of_ascii (list_ascii_of_string s).
Arguments lit s%_string.

(** [a == b] on strings. *)
Fixpoint str_eqb (a b : str) : bool :=
  match a, b with
  | [], [] => true
  | x :: a', y :: b' => N.eqb x y && str_eqb a' b'
  | _, _ => false
  end.

(** The exceptions that the modelled code can meet. *)
Inductive exn :=
| KeyError (key : str)
| IndexError
| TypeError
| ValueError.

(** A computation either returns or raises. *)
Inductive outcome (A : Type) :=
| Return (a : A)
| Raise (e : exn).
Arguments Return {A} a.
Arguments Raise {A} e.

Definition bind {A B} (m : outcome A) (k : A -> outcome B) : outcome B :=
  match m with
  | Return a => k a
  | Raise e => Raise e
  end.

(** Truth value of an attribute that holds [None] or a string:
    [None] and the empty string are false. *)
Definition truthy (x : option str) : bool :=
  match x with
  | None => false
  | Some [] => false
  | Some (_ :: _) => true
  end.

(** [f'{x}'] for an attribute that holds [None] or a string. *)
Definition format (x : option str) : str :=
  match x with
  | Some s => s
  | None => lit "None"
  end.

(** [x[0]] for an attribute that holds [None] or a string. *)
Definition subscript0 (x : option str) : outcome str :=
  match x with
  | None => Raise TypeError
  | Some [] => Raise IndexError
  | Some (c :: _) => Return [c]
  end.

(** [for ch in x]: the one-character strings of [x], in order. *)
Definition iter (x : option str) : outcome (list str) :=
  match x with
  | None => Raise TypeError
  | Some s => Return (map (fun c => [c]) s)
  end.

(** [d[k]] on a dict with string keys, kept in insertion order. *)
Fixpoint lookup {A} (d : list (str * A)) (k : str) : option A :=
  match d with
  | [] => None
  | (k', v) :: d' => if str_eqb k' k then Some v else lookup d' k
  end.

Definition getitem {A} (d : list (str * A)) (k : str) : outcome A :=
  match lookup d k with
  | Some v => Return v
  | None => Raise (KeyError k)
  end.

(** What the interpreter supplies and the repository does not fix: the
    Unicode database, consulted only for code points from 127 on, and the
    limit on the number of digits [int] converts (0 disables it). *)
Class Runtime := {
  unicode_isspace : N -> bool;
  unicode_todecimal : N -> option N;
  unicode_toupper : N -> str;
  int_max_str_digits : nat
}.

(** A runtime whose database knows no character outside ASCII. *)
Definition ascii_runtime : Runtime := {|
  unicode_isspace := fun _ => false;
  unicode_todecimal := fun _ => None;
  unicode_toupper := fun c => [c];
  int_max_str_digits := 4300
|}.

Section WithRuntime.
Context {rt : Runtime}.

(** [s.upper()]: ASCII letters are mapped here, every other code point
    by the database (one code point may become several). *)
Definition upper_char (c : N) : str :=
  if (c <? 128)%N then
    if ((97 <=? c) && (c <=? 122))%N then [(c - 32)%N] else [c]
  else unicode_toupper c.

Definition upper (s : str) : str := flat_map upper_char s.

(** *** [int(s)] for a string [s], base 10

    The string is first brought to ASCII: a code point below 127 is
    kept, a Unicode space becomes a blank, a Unicode decimal digit its
    ASCII digit, and conversion stops with a question mark at anything
    else.  The result must read: blanks, an optional sign, digits with
    single underscores between them, blanks. *)

Fixpoint transform_decimal_and_space (s : str) : str :=
  match s with
  | [] => []
  | c :: r =>
      if (c <? 127)%N then c :: transform_decimal_and_space r
      else if unicode_isspace c then 32%N :: transform_decimal_and_space r
      else match unicode_todecimal c with
           | Some d => (48 + d)%N :: transform_decimal_and_space r
           | None => [63%N]
           end
  end.

Definition Py_ISSPACE (c : N) : bool :=
  ((c =? 32) || ((9 <=? c) && (c <=? 13)))%N.

Definition is_digit (c : N) : bool := ((48 <=? c) && (c <=? 57))%N.

Fixpoint skip_space (s : str) : str :=
  match s with
  | [] => []
  | c :: r => if Py_ISSPACE c then skip_space r else s
  end.

(** The sign, if any: [true] for a minus. *)
Definition read_sign (s : str) : bool * str :=
  match s with
  | [] => (false, [])
  | c :: r =>
      if (c =? 43)%N then (false, r)
      else if (c =? 45)%N then (true, r)
      else (false, s)
  end.

(** Digits and underscores: the value read so far, the number of
    digits, and what follows them; [None] on a doubled or trailing
    underscore. *)
Fixpoint scan_digits (prev_underscore : bool) (acc : Z) (digits : nat)
    (s : str) : option (Z * nat * str) :=
  match s with
  | [] => if prev_underscore then None else Some (acc, digits, [])
  | c :: r =>
      if is_digit c then
        scan_digits false (10 * acc + Z.of_N (c - 48)) (S digits) r
      else if (c =? 95)%N then
        if prev_underscore then None else scan_digits true acc digits r
      else if prev_underscore then None
      else Some (acc, digits, s)
  end.

Definition over_digit_limit (digits : nat) : bool :=
  (640 <? digits)%nat && (0 <? int_max_str_digits)%nat
  && (int_max_str_digits <? digits)%nat.

Definition int (s : str) : outcome Z :=
  let (negative, body) :=
    read_sign (skip_space (transform_decimal_and_space s)) in
  match body with
  | c :: _ =>
      if (c =? 95)%N then Raise ValueError
      else
        match scan_digits false 0 0%nat body with
        | None => Raise ValueError
        | Some (v, digits, rest) =>
            match digits, skip_space rest with
            | O, _ => Raise ValueError
            | _, _ :: _ => Raise ValueError
            | _, [] =>
                if over_digit_limit digits then Raise ValueError
                else Return (if negative then - v else v)
            end
        end
  | [] => Raise ValueError
  end.

End WithRuntime.

End Py.

Import Py.

Notation "x <- m ;; k" := (bind m (fun x => k))
  (at level 61, m at next level, right associativity).

(** ** The controller *)

(** One entry of a transmission sequence.  The pulses carry the keys
    [sequence_type] and [value]; gaps and the confirmation do not. *)
Record step := {
  type : str;
  duration : Z;
  sequence_type : option str;
  value : option str;
  description : str
}.

(** One entry of the transmission history. *)
Record transmission_record := {
  color : str;
  number : str;
  timestamp : float;
  message : str
}.

(** The values found in the dicts the operations return. *)
Inductive py_value :=
| PyNone
| PyBool (b : bool)
| PyInt (z : Z)
| PyStr (s : str)
| PyStrList (l : list str)
| PySequence (l : list step).

Definition dict := list (str * py_value).

(** An attribute that holds [None] or a string, as a dict value. *)
Definition of_attr (x : option str) : py_value :=
  match x with
  | None => PyNone
  | Some s => PyStr s
  end.

(** The attributes of a [FiberTesterController]. *)
Record controller := {
  transmission_history : list transmission_record;
  current_color : option str;
  current_number : option str;
  is_transmitting : bool
}.

(** The two symbols of a pattern: U+00B7 and U+2212. *)
Definition DOT : N := 183.
Definition DASH : N := 8722.

Definition MORSE_CODE : list (str * str) :=
  [ (lit "R", [DOT; DASH; DOT]);
    (lit "G", [DASH; DASH; DOT]);
    (lit "B", [DASH; DOT; DOT; DOT]);
    (lit "0", [DASH; DASH; DASH; DASH; DASH]);
    (lit "1", [DOT; DASH; DASH; DASH; DASH]);
    (lit "2", [DOT; DOT; DASH; DASH; DASH]);
    (lit "3", [DOT; DOT; DOT; DASH; DASH]);
    (lit "4", [DOT; DOT; DOT; DOT; DASH]);
    (lit "5", [DOT; DOT; DOT; DOT; DOT]);
    (lit "6", [DASH; DOT; DOT; DOT; DOT]);
    (lit "7", [DASH; DASH; DOT; DOT; DOT]);
    (lit "8", [DASH; DASH; DASH; DOT; DOT]);
    (lit "9", [DASH; DASH; DASH; DASH; DOT]) ].

(** Timing constants, in milliseconds. *)
Definition DOT_DURATION : Z := 200.
Definition DASH_DURATION : Z := 600.
Definition INTRA_LETTER_GAP : Z := 200.
Definition INTER_LETTER_GAP : Z := 600.
Definition WORD_GAP : Z := 1400.
Definition CONFIRMATION_FLASH : Z := 1000.

(** [__init__] *)
Definition init : controller := {|
  transmission_history := [];
  current_color := None;
  current_number := None;
  is_transmitting := false
|}.

Definition valid_colors : list str := [lit "Red"; lit "Green"; lit "Blue"].

Definition validate_color (color : str) : bool :=
  existsb (str_eqb color) valid_colors.

Definition set_color (color : str) (self : controller) : controller * dict :=
  if negb (validate_color color) then
    (self,
     [ (lit "success", PyBool false);
       (lit "message",
        PyStr (lit "Invalid color: " ++ color
               ++ lit ". Must be Red, Green, or Blue."));
       (lit "status", PyStr (lit "error")) ])
  else
    ({| transmission_history := transmission_history self;
        current_color := Some color;
        current_number := current_number self;
        is_transmitting := is_transmitting self |},
     [ (lit "success", PyBool true);
       (lit "message", PyStr (color ++ lit " selected - Enter number"));
       (lit "status", PyStr (lit "color_selected"));
       (lit "color", PyStr color) ]).

Definition clear_selection (self : controller) : controller * dict :=
  ({| transmission_history := transmission_history self;
      current_color := None;
      current_number := None;
      is_transmitting := is_transmitting self |},
   [ (lit "success", PyBool true);
     (lit "message", PyStr (lit "Select color and number"));
     (lit "status", PyStr (lit "cleared")) ]).

(** The loop of [_pattern_to_sequence]: [i] is the index of the first of
    the [symbols] left, [len_pattern] is [len(pattern)]. *)
Fixpoint pattern_loop (len_pattern : Z) (seq_type value : str) (i : Z)
    (symbols : str) : list step :=
  match symbols with
  | [] => []
  | symbol :: rest =>
      (if (symbol =? DOT)%N then
         [ {| type := lit "dot";
              duration := DOT_DURATION;
              sequence_type := Some seq_type;
              value := Some value;
              description := lit "Dot (" ++ seq_type ++ lit ")" |} ]
       else if (symbol =? DASH)%N then
         [ {| type := lit "dash";
              duration := DASH_DURATION;
              sequence_type := Some seq_type;
              value := Some value;
              description := lit "Dash (" ++ seq_type ++ lit ")" |} ]
       else [])
      ++ (if i <? len_pattern - 1 then
            [ {| type := lit "gap";
                 duration := INTRA_LETTER_GAP;
                 sequence_type := None;
                 value := None;
                 description := lit "Intra-letter gap" |} ]
          else [])
      ++ pattern_loop len_pattern seq_type value (i + 1) rest
  end.

Definition _pattern_to_sequence (pattern seq_type value : str) : list step :=
  pattern_loop (Z.of_nat (List.length pattern)) seq_type value 0 pattern.

(** The loop over the characters of the number in
    [calculate_transmission_sequence]; [sequence] is the list built so far. *)
Fixpoint number_loop (digits : list str) (sequence : list step)
    : outcome (list step) :=
  match digits with
  | [] => Return sequence
  | digit :: rest =>
      digit_pattern <- getitem MORSE_CODE digit ;;
      number_loop rest
        (sequence
         ++ _pattern_to_sequence digit_pattern (lit "digit") digit
         ++ [ {| type := lit "gap";
                 duration := INTER_LETTER_GAP;
                 sequence_type := None;
                 value := None;
                 description :=
                   lit "Inter-letter gap after digit " ++ digit |} ])
  end.

(** [sum(step['duration'] for step in sequence)] *)
Definition sum_durations (sequence : list step) : Z :=
  fold_left (fun acc s => acc + duration s) sequence 0.

(** [[record['message'] for record in self.transmission_history]] *)
Definition history_messages (self : controller) : list str :=
  map message (transmission_history self).

Section Operations.
Context {rt : Runtime}.

Definition validate_number (number : str) : bool :=
  match int number with
  | Return num => (0 <=? num) && (num <=? 100)
  | Raise _ => false
  end.

Definition set_number (number : str) (self : controller)
    : controller * dict :=
  if negb (validate_number number) then
    (self,
     [ (lit "success", PyBool false);
       (lit "message",
        PyStr (lit "Invalid number: " ++ number ++ lit ". Must be 0-100."));
       (lit "status", PyStr (lit "error")) ])
  else
    let self' :=
      {| transmission_history := transmission_history self;
         current_color := current_color self;
         current_number := Some number;
         is_transmitting := is_transmitting self |} in
    (self',
     [ (lit "success", PyBool true);
       (lit "message",
        PyStr (if truthy (current_color self') then
                 format (current_color self') ++ lit " " ++ number
                 ++ lit " ready"
               else lit "Number " ++ number ++ lit " set - Select color"));
       (lit "status", PyStr (lit "number_set"));
       (lit "number", PyStr number) ]).

Definition calculate_transmission_sequence (self : controller)
    : outcome (list step) :=
  if negb (truthy (current_color self))
     || negb (truthy (current_number self)) then Return []
  else
    first <- subscript0 (current_color self) ;;
    let color_letter := upper first in
    color_pattern <- getitem MORSE_CODE color_letter ;;
    let sequence :=
      _pattern_to_sequence color_pattern (lit "color") []
      ++ [ {| type := lit "gap";
              duration := INTER_LETTER_GAP;
              sequence_type := None;
              value := None;
              description := lit "Inter-letter gap" |} ] in
    digits <- iter (current_number self) ;;
    sequence <- number_loop digits sequence ;;
    Return
      (sequence
       ++ [ {| type := lit "confirmation";
               duration := CONFIRMATION_FLASH;
               sequence_type := None;
               value := None;
               description := lit "Confirmation flash" |} ]).

Definition prepare_transmission (self : controller)
    : controller * outcome dict :=
  if negb (truthy (current_color self)) then
    (self,
     Return [ (lit "success", PyBool false);
              (lit "message", PyStr (lit "No color selected"));
              (lit "status", PyStr (lit "error")) ])
  else if negb (truthy (current_number self)) then
    (self,
     Return [ (lit "success", PyBool false);
              (lit "message", PyStr (lit "No number entered"));
              (lit "status", PyStr (lit "error")) ])
  else if is_transmitting self then
    (self,
     Return [ (lit "success", PyBool false);
              (lit "message",
               PyStr (lit "Transmission already in progress"));
              (lit "status", PyStr (lit "error")) ])
  else
    (self,
     sequence <- calculate_transmission_sequence self ;;
     let total_duration := sum_durations sequence in
     Return [ (lit "success", PyBool true);
              (lit "message",
               PyStr (lit "Transmitting " ++ format (current_color self)
                      ++ lit " " ++ format (current_number self)
                      ++ lit "..."));
              (lit "status", PyStr (lit "transmitting"));
              (lit "color", of_attr (current_color self));
              (lit "number", of_attr (current_number self));
              (lit "sequence", PySequence sequence);
              (lit "total_duration", PyInt total_duration) ]).

End Operations.

(** [complete_transmission]; [now] is the reading of [time.time()].  Past
    the guard both attributes hold strings, which [format] returns as they
    are. *)
Definition complete_transmission (now : float) (self : controller)
    : controller * dict :=
  if negb (truthy (current_color self))
     || negb (truthy (current_number self)) then
    (self,
     [ (lit "success", PyBool false);
       (lit "message", PyStr (lit "No transmission to complete"));
       (lit "status", PyStr (lit "error")) ])
  else
    let transmission_record :=
      {| color := format (current_color self);
         number := format (current_number self);
         timestamp := now;
         message := format (current_color self) ++ lit " "
                    ++ format (current_number self) ++ lit " sent" |} in
    let history := transmission_record :: transmission_history self in
    let history :=
      if (5 <? List.length history)%nat then firstn 5 history else history in
    let color := current_color self in
    let number := current_number self in
    let self' :=
      {| transmission_history := history;
         current_color := None;
         current_number := None;
         is_transmitting := false |} in
    (self',
     [ (lit "success", PyBool true);
       (lit "message",
        PyStr (format color ++ lit " " ++ format number ++ lit " sent"));
       (lit "status", PyStr (lit "completed"));
       (lit "history", PyStrList (history_messages self')) ]).

Definition get_status (self : controller) : controller * dict :=
  (self,
   [ (lit "color", of_attr (current_color self));
     (lit "number", of_attr (current_number self));
     (lit "is_transmitting", PyBool (is_transmitting self));
     (lit "history", PyStrList (history_messages self));
     (lit "ready_to_send",
      PyBool (truthy (current_color self) && truthy (current_number self)
              && negb (is_transmitting self))) ]).

(** ** The six operations as a transition system *)

Inductive operation :=
| SetColor (color : str)
| SetNumber (number : str)
| ClearSelection
| PrepareTransmission
| CompleteTransmission (now : float)
| GetStatus.

(** A result contains a boolean under [success] and a string under
    [message]. *)
Definition has_success_and_message (d : dict) : bool :=
  match lookup d (lit "success"), lookup d (lit "message") with
  | Some (PyBool _), Some (PyStr _) => true
  | _, _ => false
  end.

Section Machine.
Context {rt : Runtime}.

(** One call: the controller afterwards, and what the caller gets. *)
Definition call (o : operation) (self : controller)
    : controller * outcome dict :=
  match o with
  | SetColor color =>
      let (self', d) := set_color color self in (self', Return d)
  | SetNumber number =>
      let (self', d) := set_number number self in (self', Return d)
  | ClearSelection =>
      let (self', d) := clear_selection self in (self', Return d)
  | PrepareTransmission => prepare_transmission self
  | CompleteTransmission now =>
      let (self', d) := complete_transmission now self in (self', Return d)
  | GetStatus =>
      let (self', d) := get_status self in (self', Return d)
  end.

Definition next (o : operation) (self : controller) : controller :=
  fst (call o self).

(** A sequence of calls, first to last. *)
Definition run (ops : list operation) (self : controller) : controller :=
  fold_left (fun s o => next o s) ops self.

(** The states a controller can be in: [__init__] and the six
    operations are the only code that writes its attributes. *)
Inductive reachable : controller -> Prop :=
| reachable_init : reachable init
| reachable_next o c : reachable c -> reachable (next o c).

(** The selection holds what the setters accept. *)
Definition selection_valid (c : controller) : Prop :=
  (forall s, current_color c = Some s -> validate_color s = true)
  /\ (forall s, current_number c = Some s -> validate_number s = true).

End Machine.

(** ** The text encoder and the command line *)

(** The loop of [generate_morse_pattern]; [pattern] is the string built so
    far.  A character without an entry in the table adds nothing. *)
Fixpoint generate_loop (chars : list str) (pattern : str) : str :=
  match chars with
  | [] => pattern
  | char :: rest =>
      generate_loop rest
        (match lookup MORSE_CODE char with
         | Some symbols => pattern ++ symbols
         | None => pattern
         end)
  end.

Definition generate_morse_pattern {rt : Runtime} (text : str) : str :=
  generate_loop (map (fun c => [c]) (upper text)) [].

(** What [main] prints: the usage text, or the JSON of a result. *)
Inductive printed :=
| Usage
| Json (d : dict).

Section CommandLine.
Context {rt : Runtime}.

(** [str(e)] for a caught exception, as the interpreter renders it. *)
Variable exception_str : exn -> str.

(** [main], on [sys.argv]; [now] is the reading of [time.time()] should
    the command need one.  Every run starts from a new controller. *)
Definition main (argv : list str) (now : float) : printed :=
  if (List.length argv <? 2)%nat then Usage
  else
    let controller := init in
    let command := nth 1 argv [] in
    let result : outcome dict :=
      if str_eqb command (lit "set_color") && (2 <? List.length argv)%nat
      then Return (snd (set_color (nth 2 argv []) controller))
      else if str_eqb command (lit "set_number")
              && (2 <? List.length argv)%nat
      then Return (snd (set_number (nth 2 argv []) controller))
      else if str_eqb command (lit "prepare")
      then snd (prepare_transmission controller)
      else if str_eqb command (lit "complete")
      then Return (snd (complete_transmission now controller))
      else if str_eqb command (lit "clear")
      then Return (snd (clear_selection controller))
      else if str_eqb command (lit "status")
      then Return (snd (get_status controller))
      else
        Return [ (lit "success", PyBool false);
                 (lit "message", PyStr (lit "Unknown command: " ++ command));
                 (lit "status", PyStr (lit "error")) ] in
    match result with
    | Return d => Json d
    | Raise e =>
        Json [ (lit "success", PyBool false);
               (lit "message", PyStr (lit "Error: " ++ exception_str e));
               (lit "status", PyStr (lit "error")) ]
    end.

End CommandLine.

(** The decimal numeral of a natural number: [str(n)]. *)
Definition decimal (n : N) : str :=
  lit (NilZero.string_of_uint (N.to_uint n)).

(** The characters that [int] tolerates in a string brought to ASCII:
    blanks, the two signs, the underscore and the digits. *)
Definition int_char (c : N) : bool :=
  Py_ISSPACE c || (c =? 43)%N || (c =? 45)%N || (c =? 95)%N || is_digit c.

(** One transmission as a client drives it: select, prepare, complete. *)
Definition transmit (job : str * str * float) : list operation :=
  let '(color, number, now) := job in
  [ SetColor color; SetNumber number; PrepareTransmission;
    CompleteTransmission now ].

(** ** Basic facts *)

Lemma str_eqb_eq (a b : str) : str_eqb a b = true <-> a = b.
Proof.
  revert b; induction a as [|x a IH]; intros [|y b]; simpl;
    try (split; [discriminate | congruence]); [tauto|].
  rewrite andb_true_iff, N.eqb_eq, IH.
  split; [intros [-> ->]; reflexivity | intros E; inversion E; auto].
Qed.

Lemma str_eqb_refl (a : str) : str_eqb a a = true.
Proof. apply str_eqb_eq; reflexivity. Qed.

Lemma validate_color_spec (s : str) :
  validate_color s = true
  <-> s = lit "Red" \/ s = lit "Green" \/ s = lit "Blue".
Proof.
  unfold validate_color, valid_colors; simpl existsb.
  rewrite !orb_true_iff, !str_eqb_eq. intuition discriminate.
Qed.

Lemma validate_color_truthy (s : str) :
  validate_color s = true -> truthy (Some s) = true.
Proof.
  intros H; apply validate_color_spec in H.
  destruct H as [-> | [-> | ->]]; reflexivity.
Qed.

Section Facts.
Context {rt : Runtime}.

Lemma validate_number_spec (s : str) :
  validate_number s = true
  <-> exists num, int s = Return num /\ 0 <= num <= 100.
Proof.
  unfold validate_number. split.
  - destruct (int s) as [num|e]; [|discriminate].
    rewrite andb_true_iff, Z.leb_le, Z.leb_le. intros H; exists num; auto.
  - intros (num & -> & H). apply andb_true_iff; split; apply Z.leb_le; lia.
Qed.

Lemma validate_number_truthy (s : str) :
  validate_number s = true -> truthy (Some s) = true.
Proof. destruct s; [discriminate | reflexivity]. Qed.

Lemma selection_valid_truthy (c : controller) :
  selection_valid c ->
  (truthy (current_color c) = true <-> current_color c <> None)
  /\ (truthy (current_number c) = true <-> current_number c <> None).
Proof.
  intros [Hc Hn]. split.
  - destruct (current_color c) as [s|] eqn:E.
    + rewrite (validate_color_truthy s (Hc s eq_refl)).
      split; [discriminate | reflexivity].
    + simpl; split; [discriminate | congruence].
  - destruct (current_number c) as [s|] eqn:E.
    + rewrite (validate_number_truthy s (Hn s eq_refl)).
      split; [discriminate | reflexivity].
    + simpl; split; [discriminate | congruence].
Qed.

(** What each operation does to the attributes. *)

Lemma set_color_state (color : str) (c : controller) :
  fst (set_color color c)
  = if validate_color color then
      {| transmission_history := transmission_history c;
         current_color := Some color;
         current_number := current_number c;
         is_transmitting := is_transmitting c |}
    else c.
Proof. unfold set_color; destruct (validate_color color); reflexivity. Qed.

Lemma set_number_state (number : str) (c : controller) :
  fst (set_number number c)
  = if validate_number number then
      {| transmission_history := transmission_history c;
         current_color := current_color c;
         current_number := Some number;
         is_transmitting := is_transmitting c |}
    else c.
Proof. unfold set_number; destruct (validate_number number); reflexivity. Qed.

Lemma prepare_transmission_state (c : controller) :
  fst (prepare_transmission c) = c.
Proof.
  unfold prepare_transmission.
  destruct (negb (truthy (current_color c))); [reflexivity|].
  destruct (negb (truthy (current_number c))); [reflexivity|].
  destruct (is_transmitting c); reflexivity.
Qed.

Lemma complete_transmission_state (now : float) (c : controller) :
  fst (complete_transmission now c)
  = if truthy (current_color c) && truthy (current_number c) then
      {| transmission_history :=
           firstn 5
             ({| color := format (current_color c);
                 number := format (current_number c);
                 timestamp := now;
                 message := format (current_color c) ++ lit " "
                            ++ format (current_number c) ++ lit " sent" |}
              :: transmission_history c);
         current_color := None;
         current_number := None;
         is_transmitting := false |}
    else c.
Proof.
  unfold complete_transmission.
  destruct (truthy (current_color c)), (truthy (current_number c));
    simpl; try reflexivity.
  destruct (transmission_history c) as [|r1 [|r2 [|r3 [|r4 [|r5 h]]]]];
    reflexivity.
Qed.

Lemma next_cases (o : operation) (c : controller) :
  next o c
  = match o with
    | SetColor color => fst (set_color color c)
    | SetNumber number => fst (set_number number c)
    | ClearSelection => fst (clear_selection c)
    | PrepareTransmission => c
    | CompleteTransmission now => fst (complete_transmission now c)
    | GetStatus => c
    end.
Proof.
  unfold next, call.
  destruct o as [color|number| | |now|]; try reflexivity.
  - destruct (set_color color c); reflexivity.
  - destruct (set_number number c); reflexivity.
  - apply prepare_transmission_state.
  - destruct (complete_transmission now c); reflexivity.
Qed.

Lemma run_app (ops1 ops2 : list operation) (c : controller) :
  run (ops1 ++ ops2) c = run ops2 (run ops1 c).
Proof. apply fold_left_app. Qed.

Lemma reachable_run (ops : list operation) : reachable (run ops init).
Proof.
  induction ops as [|o ops IH] using rev_ind; [constructor|].
  rewrite run_app. simpl. constructor. exact IH.
Qed.

Lemma reachable_inv (c : controller) :
  reachable c -> exists ops, c = run ops init.
Proof.
  induction 1 as [|o c _ [ops ->]]; [exists []; reflexivity|].
  exists (ops ++ [o]). rewrite run_app. reflexivity.
Qed.

(** The invariants of the transition system. *)

Lemma next_selection_valid (o : operation) (c : controller) :
  selection_valid c -> selection_valid (next o c).
Proof.
  intros [Hc Hn]. rewrite next_cases.
  destruct o as [color|number| | |now|].
  - rewrite set_color_state.
    destruct (validate_color color) eqn:E; [|split; assumption].
    split; simpl; [intros s [= <-]; exact E | exact Hn].
  - rewrite set_number_state.
    destruct (validate_number number) eqn:E; [|split; assumption].
    split; simpl; [exact Hc | intros s [= <-]; exact E].
  - split; simpl; discriminate.
  - split; assumption.
  - rewrite complete_transmission_state.
    destruct (truthy (current_color c) && truthy (current_number c));
      [split; simpl; discriminate | split; assumption].
  - split; assumption.
Qed.

Lemma next_is_transmitting (o : operation) (c : controller) :
  is_transmitting (next o c) = is_transmitting c
  \/ is_transmitting (next o c) = false.
Proof.
  rewrite next_cases. destruct o as [color|number| | |now|]; auto.
  - rewrite set_color_state. destruct (validate_color color); auto.
  - rewrite set_number_state. destruct (validate_number number); auto.
  - rewrite complete_transmission_state.
    destruct (truthy (current_color c) && truthy (current_number c)); auto.
Qed.

Lemma next_history_length (o : operation) (c : controller) :
  (List.length (transmission_history c) <= 5)%nat ->
  (List.length (transmission_history (next o c)) <= 5)%nat.
Proof.
  intros H. rewrite next_cases.
  destruct o as [color|number| | |now|]; auto.
  - rewrite set_color_state. destruct (validate_color color); auto.
  - rewrite set_number_state. destruct (validate_number number); auto.
  - rewrite complete_transmission_state.
    destruct (truthy (current_color c) && truthy (current_number c)); auto.
    cbn [transmission_history]. rewrite length_firstn. lia.
Qed.

Lemma reachable_selection_valid (c : controller) :
  reachable c -> selection_valid c.
Proof.
  induction 1; [split; simpl; discriminate|].
  apply next_selection_valid; assumption.
Qed.

Lemma reachable_not_transmitting (c : controller) :
  reachable c -> is_transmitting c = false.
Proof.
  induction 1 as [|o c _ IH]; [reflexivity|].
  destruct (next_is_transmitting o c) as [E | E]; congruence.
Qed.

Lemma reachable_history_length (c : controller) :
  reachable c -> (List.length (transmission_history c) <= 5)%nat.
Proof.
  induction 1; [simpl; lia|]. apply next_history_length; assumption.
Qed.

End Facts.

(** ** The compiler on the selection Blue 7 *)

(** C1: for a controller whose colour is Blue and whose number is 7,
    [prepare_transmission] succeeds; the sequence is a dash, then three
    dots with an intra-letter gap before each (letter B), an inter-letter
    gap, dash dash dot dot dot with intra-letter gaps between them (digit
    7), an inter-letter gap and the confirmation flash; [total_duration]
    is the sum of the durations, 6600 ms. *)
Theorem prepare_transmission_Blue_7 {rt : Runtime} (c : controller) :
  reachable c ->
  current_color c = Some (lit "Blue") ->
  current_number c = Some (lit "7") ->
  exists sequence,
    prepare_transmission c
    = (c, Return [ (lit "success", PyBool true);
                   (lit "message", PyStr (lit "Transmitting Blue 7..."));
                   (lit "status", PyStr (lit "transmitting"));
                   (lit "color", PyStr (lit "Blue"));
                   (lit "number", PyStr (lit "7"));
                   (lit "sequence", PySequence sequence);
                   (lit "total_duration", PyInt 6600) ])
    /\ map (fun s => (type s, description s, duration s)) sequence
       = [ (lit "dash", lit "Dash (color)", 600);
           (lit "gap", lit "Intra-letter gap", 200);
           (lit "dot", lit "Dot (color)", 200);
           (lit "gap", lit "Intra-letter gap", 200);
           (lit "dot", lit "Dot (color)", 200);
           (lit "gap", lit "Intra-letter gap", 200);
           (lit "dot", lit "Dot (color)", 200);
           (lit "gap", lit "Inter-letter gap", 600);
           (lit "dash", lit "Dash (digit)", 600);
           (lit "gap", lit "Intra-letter gap", 200);
           (lit "dash", lit "Dash (digit)", 600);
           (lit "gap", lit "Intra-letter gap", 200);
           (lit "dot", lit "Dot (digit)", 200);
           (lit "gap", lit "Intra-letter gap", 200);
           (lit "dot", lit "Dot (digit)", 200);
           (lit "gap", lit "Intra-letter gap", 200);
           (lit "dot", lit "Dot (digit)", 200);
           (lit "gap", lit "Inter-letter gap after digit 7", 600);
           (lit "confirmation", lit "Confirmation flash", 1000) ]
    /\ sum_durations sequence = 6600.
Proof.
  intros R Hc Hn. pose proof (reachable_not_transmitting c R) as Ht.
  destruct c as [h col num tr]; simpl in Hc, Hn, Ht; subst col num tr.
  exists (match calculate_transmission_sequence
                  {| transmission_history := [];
                     current_color := Some (lit "Blue");
                     current_number := Some (lit "7");
                     is_transmitting := false |} with
          | Return s => s
          | Raise _ => []
          end).
  repeat split; vm_compute; reflexivity.
Qed.

Lemma prepare_transmission_Blue_7_witness :
  exists sequence,
    snd (prepare_transmission (rt := ascii_runtime)
           (run (rt := ascii_runtime)
              [SetColor (lit "Blue"); SetNumber (lit "7")] init))
    = Return [ (lit "success", PyBool true);
               (lit "message", PyStr (lit "Transmitting Blue 7..."));
               (lit "status", PyStr (lit "transmitting"));
               (lit "color", PyStr (lit "Blue"));
               (lit "number", PyStr (lit "7"));
               (lit "sequence", PySequence sequence);
               (lit "total_duration", PyInt 6600) ]
    /\ sum_durations sequence = 6600.
Proof.
  destruct (prepare_transmission_Blue_7 (rt := ascii_runtime)
              (run (rt := ascii_runtime)
                 [SetColor (lit "Blue"); SetNumber (lit "7")] init))
    as (sequence & E & _ & S).
  - cbv [run fold_left]. do 2 apply reachable_next. apply reachable_init.
  - reflexivity.
  - reflexivity.
  - exists sequence. rewrite E. split; [reflexivity | exact S].
Defined.

(** ** Frame properties *)

(** C10: [prepare_transmission] writes no attribute, whether it succeeds,
    fails or raises; a second call in the same state therefore gives what
    the first one gave, sequence and total duration included. *)
Theorem prepare_transmission_mutates_nothing {rt : Runtime} (c : controller) :
  fst (prepare_transmission c) = c
  /\ prepare_transmission (fst (prepare_transmission c))
     = prepare_transmission c.
Proof.
  pose proof (prepare_transmission_state c) as E.
  split; [exact E | rewrite E; reflexivity].
Qed.

(** C8: [clear_selection] succeeds with status [cleared], unsets colour
    and number, keeps the history and the transmitting flag, and a second
    call changes nothing more. *)
Theorem clear_selection_spec (c : controller) :
  snd (clear_selection c)
  = [ (lit "success", PyBool true);
      (lit "message", PyStr (lit "Select color and number"));
      (lit "status", PyStr (lit "cleared")) ]
  /\ current_color (fst (clear_selection c)) = None
  /\ current_number (fst (clear_selection c)) = None
  /\ transmission_history (fst (clear_selection c)) = transmission_history c
  /\ is_transmitting (fst (clear_selection c)) = is_transmitting c
  /\ clear_selection (fst (clear_selection c)) = clear_selection c.
Proof. repeat split. Qed.

(** ** The transmitting flag *)

(** C5: after any sequence of operations on a fresh controller the flag
    [is_transmitting] is false; every operation leaves it as it was or
    makes it false; so [prepare_transmission] never answers that a
    transmission is already in progress. *)
Theorem is_transmitting_never_true {rt : Runtime} (ops : list operation) :
  is_transmitting (run ops init) = false
  /\ (forall o c,
        is_transmitting (next o c) = is_transmitting c
        \/ is_transmitting (next o c) = false)
  /\ (forall d,
        snd (prepare_transmission (run ops init)) = Return d ->
        lookup d (lit "message")
        <> Some (PyStr (lit "Transmission already in progress"))).
Proof.
  pose proof (reachable_not_transmitting _ (reachable_run ops)) as Ht.
  split; [exact Ht|]. split; [exact next_is_transmitting|].
  intros d. unfold prepare_transmission. rewrite Ht.
  destruct (negb (truthy (current_color (run ops init))));
    [intros [= <-]; discriminate|].
  destruct (negb (truthy (current_number (run ops init))));
    [intros [= <-]; discriminate|].
  simpl. destruct (calculate_transmission_sequence (run ops init));
    simpl; [intros [= <-] | discriminate].
  cbn. discriminate.
Qed.

Lemma is_transmitting_never_true_witness :
  is_transmitting
    (run (rt := ascii_runtime)
       [SetColor (lit "Blue"); SetNumber (lit "7"); PrepareTransmission]
       init)
  = false
  /\ exists d,
       snd (prepare_transmission (rt := ascii_runtime)
              (run (rt := ascii_runtime)
                 [SetColor (lit "Blue"); SetNumber (lit "7");
                  PrepareTransmission] init))
       = Return d
       /\ lookup d (lit "message")
          <> Some (PyStr (lit "Transmission already in progress")).
Proof.
  destruct (is_transmitting_never_true (rt := ascii_runtime)
              [SetColor (lit "Blue"); SetNumber (lit "7");
               PrepareTransmission]) as (F & _ & P).
  split; [exact F|].
  eexists. split; [reflexivity|]. apply P. reflexivity.
Defined.

(** ** Completing a transmission *)

Lemma complete_transmission_success (now : float) (c : controller) :
  truthy (current_color c) = true ->
  truthy (current_number c) = true ->
  let record :=
    {| color := format (current_color c);
       number := format (current_number c);
       timestamp := now;
       message := format (current_color c) ++ lit " "
                  ++ format (current_number c) ++ lit " sent" |} in
  let history := record :: firstn 4 (transmission_history c) in
  complete_transmission now c
  = ({| transmission_history := history;
        current_color := None;
        current_number := None;
        is_transmitting := false |},
     [ (lit "success", PyBool true);
       (lit "message", PyStr (message record));
       (lit "status", PyStr (lit "completed"));
       (lit "history", PyStrList (map message history)) ]).
Proof.
  intros Hc Hn. unfold complete_transmission. rewrite Hc, Hn. simpl.
  destruct (transmission_history c) as [|r1 [|r2 [|r3 [|r4 [|r5 h]]]]];
    reflexivity.
Qed.

Lemma complete_transmission_failure (now : float) (c : controller) :
  truthy (current_color c) = false \/ truthy (current_number c) = false ->
  complete_transmission now c
  = (c, [ (lit "success", PyBool false);
          (lit "message", PyStr (lit "No transmission to complete"));
          (lit "status", PyStr (lit "error")) ]).
Proof.
  unfold complete_transmission. intros [-> | ->]; simpl;
    [|rewrite orb_true_r]; reflexivity.
Qed.

(** C4: when colour and number are both set, [complete_transmission]
    succeeds with status [completed]; the history becomes one new record,
    whose message is the colour, a blank, the number and the word sent,
    followed by the four newest of the records held before, so at most
    five, newest first; colour and number are unset and the flag is false
    afterwards.  When colour or number is unset it fails with status
    [error] and the controller is as before.  No sequence of operations on
    a fresh controller makes the history longer than five. *)
Theorem complete_transmission_spec {rt : Runtime}
    (now : float) (c : controller) :
  selection_valid c ->
  (forall col num,
     current_color c = Some col ->
     current_number c = Some num ->
     let record :=
       {| color := col;
          number := num;
          timestamp := now;
          message := col ++ lit " " ++ num ++ lit " sent" |} in
     let history := record :: firstn 4 (transmission_history c) in
     complete_transmission now c
     = ({| transmission_history := history;
           current_color := None;
           current_number := None;
           is_transmitting := false |},
        [ (lit "success", PyBool true);
          (lit "message", PyStr (col ++ lit " " ++ num ++ lit " sent"));
          (lit "status", PyStr (lit "completed"));
          (lit "history", PyStrList (map message history)) ])
     /\ (List.length history <= 5)%nat)
  /\ (current_color c = None \/ current_number c = None ->
      complete_transmission now c
      = (c, [ (lit "success", PyBool false);
              (lit "message", PyStr (lit "No transmission to complete"));
              (lit "status", PyStr (lit "error")) ]))
  /\ (forall ops,
        (List.length (transmission_history (run ops init)) <= 5)%nat).
Proof.
  intros V. split; [|split].
  - intros col num Hc Hn record history.
    destruct V as [Vc Vn].
    pose proof (validate_color_truthy col (Vc col Hc)) as Tc.
    pose proof (validate_number_truthy num (Vn num Hn)) as Tn.
    rewrite <- Hc in Tc. rewrite <- Hn in Tn.
    pose proof (complete_transmission_success now c Tc Tn) as E.
    rewrite Hc, Hn in E. simpl in E. split; [exact E|].
    subst history. cbn [List.length]. rewrite length_firstn. lia.
  - intros H. apply complete_transmission_failure.
    destruct H as [-> | ->]; auto.
  - intros ops. apply reachable_history_length, reachable_run.
Qed.

Lemma complete_transmission_spec_witness :
  complete_transmission 1.5%float
    (run (rt := ascii_runtime) [SetColor (lit "Green"); SetNumber (lit "42")]
       init)
  = ({| transmission_history :=
          [ {| color := lit "Green";
               number := lit "42";
               timestamp := 1.5%float;
               message := lit "Green 42 sent" |} ];
        current_color := None;
        current_number := None;
        is_transmitting := false |},
     [ (lit "success", PyBool true);
       (lit "message", PyStr (lit "Green 42 sent"));
       (lit "status", PyStr (lit "completed"));
       (lit "history", PyStrList [lit "Green 42 sent"]) ]).
Proof.
  refine (proj1 (proj1 (complete_transmission_spec (rt := ascii_runtime)
                          1.5%float
                          (run (rt := ascii_runtime)
                             [SetColor (lit "Green"); SetNumber (lit "42")]
                             init) _)
                   (lit "Green") (lit "42") eq_refl eq_refl)).
  split; intros s E; vm_compute in E; injection E as <-; reflexivity.
Defined.

(** ** Validation failures *)

(** C6: [set_color] with a string other than Red, Green and Blue, and
    [set_number] with a string that is not an integer from 0 to 100,
    answer [success] false with status [error] and leave the controller
    exactly as it was. *)
Theorem validation_failure_changes_nothing {rt : Runtime}
    (c : controller) (s : str) :
  (s <> lit "Red" /\ s <> lit "Green" /\ s <> lit "Blue" ->
   set_color s c
   = (c, [ (lit "success", PyBool false);
           (lit "message",
            PyStr (lit "Invalid color: " ++ s
                   ++ lit ". Must be Red, Green, or Blue."));
           (lit "status", PyStr (lit "error")) ]))
  /\ ((forall num, int s = Return num -> ~ 0 <= num <= 100) ->
      set_number s c
      = (c, [ (lit "success", PyBool false);
              (lit "message",
               PyStr (lit "Invalid number: " ++ s ++ lit ". Must be 0-100."));
              (lit "status", PyStr (lit "error")) ])).
Proof.
  split.
  - intros H. unfold set_color.
    destruct (validate_color s) eqn:E; [|reflexivity].
    apply validate_color_spec in E. tauto.
  - intros H. unfold set_number.
    destruct (validate_number s) eqn:E; [|reflexivity].
    apply validate_number_spec in E. destruct E as (num & E & R).
    destruct (H num E R).
Qed.

Lemma validation_failure_changes_nothing_witness :
  set_color (lit "green") init
  = (init, [ (lit "success", PyBool false);
             (lit "message",
              PyStr (lit "Invalid color: green. Must be Red, Green, or Blue."));
             (lit "status", PyStr (lit "error")) ])
  /\ set_number (rt := ascii_runtime) (lit "150") init
     = (init, [ (lit "success", PyBool false);
                (lit "message",
                 PyStr (lit "Invalid number: 150. Must be 0-100."));
                (lit "status", PyStr (lit "error")) ]).
Proof.
  split.
  - apply (proj1 (validation_failure_changes_nothing (rt := ascii_runtime)
                    init (lit "green"))).
    repeat split; discriminate.
  - apply (proj2 (validation_failure_changes_nothing (rt := ascii_runtime)
                    init (lit "150"))).
    intros num E. vm_compute in E. injection E as <-. lia.
Defined.

(** ** Status *)

(** C7: [get_status] writes no attribute, and its [ready_to_send] is true
    exactly when colour and number are set and the flag is false. *)
Theorem get_status_ready_to_send {rt : Runtime} (c : controller) :
  selection_valid c ->
  fst (get_status c) = c
  /\ exists b,
       lookup (snd (get_status c)) (lit "ready_to_send") = Some (PyBool b)
       /\ (b = true
           <-> current_color c <> None /\ current_number c <> None
               /\ is_transmitting c = false).
Proof.
  intros V. split; [reflexivity|].
  destruct (selection_valid_truthy c V) as [Tc Tn].
  eexists. split; [reflexivity|].
  rewrite !andb_true_iff, negb_true_iff, Tc, Tn. tauto.
Qed.

Lemma get_status_ready_to_send_witness :
  lookup
    (snd (get_status
            {| transmission_history := [];
               current_color := Some (lit "Red");
               current_number := Some (lit "1");
               is_transmitting := true |}))
    (lit "ready_to_send")
  = Some (PyBool false).
Proof.
  destruct (proj2 (get_status_ready_to_send (rt := ascii_runtime)
             {| transmission_history := [];
                current_color := Some (lit "Red");
                current_number := Some (lit "1");
                is_transmitting := true |}
             ltac:(split; intros s E; injection E as <-; reflexivity)))
    as (b & E & I).
  rewrite E. destruct b; [|reflexivity].
  destruct (proj1 I eq_refl) as (_ & _ & F). discriminate F.
Defined.

(** ** The shape of the results *)

Lemma MORSE_CODE_digit (c : N) :
  is_digit c = true -> exists pattern, lookup MORSE_CODE [c] = Some pattern.
Proof.
  unfold is_digit. rewrite andb_true_iff, !N.leb_le. intros [L U].
  assert (c = 48 \/ c = 49 \/ c = 50 \/ c = 51 \/ c = 52 \/ c = 53
          \/ c = 54 \/ c = 55 \/ c = 56 \/ c = 57)%N as H by lia.
  repeat (destruct H as [-> | H]; [eexists; reflexivity|]).
  subst c; eexists; reflexivity.
Qed.

Lemma number_loop_digits (num : str) (sequence : list step) :
  forallb is_digit num = true ->
  exists sequence',
    number_loop (map (fun c => [c]) num) sequence = Return sequence'.
Proof.
  revert sequence. induction num as [|c num IH]; intros sequence H.
  - exists sequence; reflexivity.
  - simpl in H. apply andb_true_iff in H. destruct H as [Hc Hnum].
    destruct (MORSE_CODE_digit c Hc) as [pattern E].
    cbn [map number_loop]. unfold getitem. rewrite E. cbn [bind].
    apply IH, Hnum.
Qed.

Lemma calculate_transmission_sequence_returns {rt : Runtime}
    (c : controller) :
  (forall col, current_color c = Some col -> validate_color col = true) ->
  (forall num, current_number c = Some num -> forallb is_digit num = true) ->
  exists sequence, calculate_transmission_sequence c = Return sequence.
Proof.
  intros Vc Vn. unfold calculate_transmission_sequence.
  destruct (negb (truthy (current_color c))
            || negb (truthy (current_number c))) eqn:G;
    [eexists; reflexivity|].
  apply orb_false_iff in G. destruct G as [Gc Gn].
  destruct (current_color c) as [col|] eqn:Ec; [|discriminate].
  destruct (current_number c) as [num|] eqn:En; [|discriminate].
  pose proof (Vc col eq_refl) as Hc. apply validate_color_spec in Hc.
  destruct (number_loop_digits num) with (1 := Vn num eq_refl)
    (sequence := _pattern_to_sequence
                   match lookup MORSE_CODE (upper [hd 0%N col]) with
                   | Some p => p
                   | None => []
                   end (lit "color") []
                 ++ [ {| type := lit "gap";
                         duration := INTER_LETTER_GAP;
                         sequence_type := None;
                         value := None;
                         description := lit "Inter-letter gap" |} ])
    as [sequence' E].
  destruct Hc as [-> | [-> | ->]]; cbn in E |- *; rewrite E; cbn;
    eexists; reflexivity.
Qed.

(** C9: the results of [set_color], [set_number], [clear_selection] and
    [complete_transmission] always hold a boolean under [success] and a
    string under [message]; so does every result [prepare_transmission]
    returns, and it returns one whenever the colour is a valid one and the
    number is made of decimal digits.  The result of [get_status] holds
    the keys color, number, is_transmitting, history and ready_to_send,
    and neither [success] nor [message]. *)
Theorem results_success_and_message {rt : Runtime}
    (c : controller) (s : str) (now : float) :
  has_success_and_message (snd (set_color s c)) = true
  /\ has_success_and_message (snd (set_number s c)) = true
  /\ has_success_and_message (snd (clear_selection c)) = true
  /\ has_success_and_message (snd (complete_transmission now c)) = true
  /\ (forall d,
        snd (prepare_transmission c) = Return d ->
        has_success_and_message d = true)
  /\ ((forall col, current_color c = Some col -> validate_color col = true) ->
      (forall num, current_number c = Some num ->
                   forallb is_digit num = true) ->
      exists d, snd (prepare_transmission c) = Return d)
  /\ map fst (snd (get_status c))
     = [ lit "color"; lit "number"; lit "is_transmitting"; lit "history";
         lit "ready_to_send" ]
  /\ has_success_and_message (snd (get_status c)) = false.
Proof.
  repeat match goal with |- _ /\ _ => split end.
  - unfold set_color. destruct (validate_color s); reflexivity.
  - unfold set_number. destruct (validate_number s); reflexivity.
  - reflexivity.
  - unfold complete_transmission.
    destruct (negb (truthy (current_color c))
              || negb (truthy (current_number c))); reflexivity.
  - intros d. unfold prepare_transmission.
    destruct (negb (truthy (current_color c)));
      [intros [= <-]; reflexivity|].
    destruct (negb (truthy (current_number c)));
      [intros [= <-]; reflexivity|].
    destruct (is_transmitting c); [intros [= <-]; reflexivity|].
    cbn [snd]. destruct (calculate_transmission_sequence c);
      cbn [bind]; [intros [= <-]; reflexivity | discriminate].
  - intros Vc Vn. unfold prepare_transmission.
    destruct (negb (truthy (current_color c))); [eexists; reflexivity|].
    destruct (negb (truthy (current_number c))); [eexists; reflexivity|].
    destruct (is_transmitting c); [eexists; reflexivity|].
    destruct (calculate_transmission_sequence_returns c Vc Vn) as [sq E].
    cbn [snd]. rewrite E. eexists; reflexivity.
  - reflexivity.
  - reflexivity.
Qed.

Lemma results_success_and_message_witness :
  exists d,
    snd (prepare_transmission (rt := ascii_runtime)
           {| transmission_history := [];
              current_color := Some (lit "Green");
              current_number := Some (lit "23");
              is_transmitting := false |})
    = Return d
    /\ has_success_and_message d = true.
Proof.
  pose proof (results_success_and_message (rt := ascii_runtime)
                {| transmission_history := [];
                   current_color := Some (lit "Green");
                   current_number := Some (lit "23");
                   is_transmitting := false |}
                (lit "Green") 1.5%float) as (_ & _ & _ & _ & P & R & _).
  destruct R as [d E].
  - intros col [= <-]; reflexivity.
  - intros num [= <-]; reflexivity.
  - exists d. split; [exact E | exact (P d E)].
Defined.

(** C9, as the specification words it, fails on [get_status]: on a fresh
    controller its result has no [success] and no [message]. *)
Lemma get_status_lacks_success_and_message :
  has_success_and_message (snd (get_status init)) = false
  /\ lookup (snd (get_status init)) (lit "success") = None
  /\ lookup (snd (get_status init)) (lit "message") = None.
Proof. repeat split. Qed.

(** ** Numbers that [set_number] accepts and the compiler cannot encode *)

Lemma call_returns_except_prepare {rt : Runtime}
    (o : operation) (c : controller) :
  o <> PrepareTransmission -> exists d, snd (call o c) = Return d.
Proof.
  destruct o as [color|number| | |now|]; intros H; try congruence;
    unfold call.
  - destruct (set_color color c); eexists; reflexivity.
  - destruct (set_number number c); eexists; reflexivity.
  - eexists; reflexivity.
  - destruct (complete_transmission now c); eexists; reflexivity.
  - eexists; reflexivity.
Qed.

Lemma reachable_number_in_range {rt : Runtime} (c : controller) (s : str) :
  reachable c ->
  current_number c = Some s ->
  s <> [] /\ exists num, int s = Return num /\ 0 <= num <= 100.
Proof.
  intros R E. destruct (reachable_selection_valid c R) as [_ Vn].
  pose proof (Vn s E) as V. split.
  - intros ->. discriminate V.
  - apply validate_number_spec, V.
Qed.

(** C2: the operations do not all return.  On a fresh controller,
    [set_color] with Red and [set_number] with the string +7 both
    succeed, the number being read as 7, and [prepare_transmission] then
    raises [KeyError] on the plus sign instead of returning a result. *)
Theorem prepare_transmission_raises_KeyError {rt : Runtime} :
  let c := run [SetColor (lit "Red"); SetNumber (lit "+7")] init in
  int (lit "+7") = Return 7
  /\ lookup (snd (set_number (lit "+7") (fst (set_color (lit "Red") init))))
       (lit "success")
     = Some (PyBool true)
  /\ c = {| transmission_history := [];
            current_color := Some (lit "Red");
            current_number := Some (lit "+7");
            is_transmitting := false |}
  /\ call PrepareTransmission c = (c, Raise (KeyError (lit "+"))).
Proof. repeat split. Qed.

(** C3: the stored number need not be a string of decimal digits.  On a
    fresh controller [set_number] with the string +7 succeeds and stores
    that very string, whose first character is not a digit; its value, 7,
    is within range. *)
Theorem set_number_stores_non_digit_string {rt : Runtime} :
  let c := fst (set_number (lit "+7") init) in
  lookup (snd (set_number (lit "+7") init)) (lit "status")
  = Some (PyStr (lit "number_set"))
  /\ current_number c = Some (lit "+7")
  /\ int (lit "+7") = Return 7
  /\ forallb is_digit (lit "+7") = false.
Proof. repeat split. Qed.

(** ** Extra properties: timed sequences *)

Lemma fold_durations (l : list step) (acc : Z) :
  fold_left (fun a s => a + duration s) l acc = acc + sum_durations l.
Proof.
  unfold sum_durations. revert acc.
  induction l as [|s l IH]; intros acc; cbn [fold_left]; [lia|].
  rewrite (IH (acc + duration s)), (IH (0 + duration s)). lia.
Qed.

Lemma sum_durations_app (a b : list step) :
  sum_durations (a ++ b) = sum_durations a + sum_durations b.
Proof.
  unfold sum_durations at 1. rewrite fold_left_app, fold_durations.
  fold (sum_durations a). lia.
Qed.

Lemma sum_durations_cons (s : step) (l : list step) :
  sum_durations (s :: l) = duration s + sum_durations l.
Proof. apply (sum_durations_app [s] l). Qed.

Lemma sum_durations_single (s : step) : sum_durations [s] = duration s.
Proof. reflexivity. Qed.

(** The arithmetic left once the next symbol and the rest are known. *)
Ltac measure_step :=
  rewrite ?sum_durations_single;
  cbn [List.length pred duration];
  try change (sum_durations []) with 0;
  unfold DOT_DURATION, DASH_DURATION, INTRA_LETTER_GAP;
  split; lia.

Lemma pattern_loop_measure (n : Z) (t v : str) (syms : str) (i : Z) :
  n = i + Z.of_nat (List.length syms) ->
  List.length (pattern_loop n t v i syms)
  = (count_occ N.eq_dec syms DOT + count_occ N.eq_dec syms DASH
     + pred (List.length syms))%nat
  /\ sum_durations (pattern_loop n t v i syms)
     = 200 * Z.of_nat (count_occ N.eq_dec syms DOT)
       + 600 * Z.of_nat (count_occ N.eq_dec syms DASH)
       + 200 * Z.of_nat (pred (List.length syms)).
Proof.
  revert i. induction syms as [|symbol rest IH]; intros i Hn.
  - split; reflexivity.
  - cbn [List.length] in Hn.
    destruct (IH (i + 1)) as [IHl IHd]; [lia|].
    assert (G : (i <? n - 1) = match rest with [] => false | _ => true end).
    { destruct rest; cbn [List.length] in Hn;
        destruct (Z.ltb_spec i (n - 1)); try reflexivity; lia. }
    cbn [pattern_loop]. rewrite G, !length_app, !sum_durations_app, IHl, IHd.
    cbn [count_occ List.length pred].
    destruct (N.eq_dec symbol DOT) as [->|ND];
      [|destruct (N.eq_dec symbol DASH) as [->|NA]].
    + replace (DOT =? DOT)%N with true by reflexivity.
      destruct (N.eq_dec DOT DASH) as [E|_]; [discriminate E|].
      destruct rest; measure_step.
    + replace (DASH =? DOT)%N with false by reflexivity.
      replace (DASH =? DASH)%N with true by reflexivity.
      destruct rest; measure_step.
    + destruct (N.eqb_spec symbol DOT) as [E|_]; [contradiction|].
      destruct (N.eqb_spec symbol DASH) as [E|_]; [contradiction|].
      destruct rest; measure_step.
Qed.

(** X1: [_pattern_to_sequence] gives one pulse per dot or dash of the
    pattern and one gap less than the pattern has symbols; a symbol that is
    neither adds no pulse but still counts for the gaps.  The durations add
    up to 200 ms per dot, 600 ms per dash and 200 ms per gap. *)
Theorem pattern_to_sequence_measure (pattern seq_type value : str) :
  List.length (_pattern_to_sequence pattern seq_type value)
  = (count_occ N.eq_dec pattern DOT + count_occ N.eq_dec pattern DASH
     + pred (List.length pattern))%nat
  /\ sum_durations (_pattern_to_sequence pattern seq_type value)
     = 200 * Z.of_nat (count_occ N.eq_dec pattern DOT)
       + 600 * Z.of_nat (count_occ N.eq_dec pattern DASH)
       + 200 * Z.of_nat (pred (List.length pattern)).
Proof. apply pattern_loop_measure. lia. Qed.

Lemma pattern_loop_pulses (n : Z) (t v : str) (syms : str) (i : Z) :
  map type
    (filter (fun s => negb (str_eqb (type s) (lit "gap")))
       (pattern_loop n t v i syms))
  = map (fun symbol => if (symbol =? DOT)%N then lit "dot" else lit "dash")
      (filter (fun symbol => (symbol =? DOT)%N || (symbol =? DASH)%N) syms)
  /\ Forall
       (fun s =>
          s = {| type := lit "gap";
                 duration := 200;
                 sequence_type := None;
                 value := None;
                 description := lit "Intra-letter gap" |}
          \/ (sequence_type s = Some t /\ value s = Some v
              /\ (type s = lit "dot" /\ duration s = 200
                  \/ type s = lit "dash" /\ duration s = 600)))
       (pattern_loop n t v i syms).
Proof.
  revert i. induction syms as [|symbol rest IH]; intros i.
  - split; [reflexivity | constructor].
  - destruct (IH (i + 1)) as [IHp IHf]. cbn [pattern_loop filter].
    rewrite !filter_app, !map_app, IHp. split.
    + destruct (symbol =? DOT)%N eqn:E1;
        [|destruct (symbol =? DASH)%N eqn:E2];
        destruct (i <? n - 1); cbn [orb filter map app];
        rewrite ?E1; reflexivity.
    + apply Forall_app; split; [|apply Forall_app; split; [|exact IHf]].
      * destruct (symbol =? DOT)%N; [|destruct (symbol =? DASH)%N];
          [| |constructor];
          (constructor; [right; cbn; auto 6 | constructor]).
      * destruct (i <? n - 1); [|constructor].
        constructor; [left; reflexivity | constructor].
Qed.

(** X2: leaving the gaps out, the steps of [_pattern_to_sequence] spell
    the dots and dashes of the pattern in order; every step is either the
    200 ms intra-letter gap or a pulse that carries the given sequence type
    and value, 200 ms for a dot and 600 ms for a dash. *)
Theorem pattern_to_sequence_pulses (pattern seq_type val : str) :
  map type
    (filter (fun s => negb (str_eqb (type s) (lit "gap")))
       (_pattern_to_sequence pattern seq_type val))
  = map (fun symbol => if (symbol =? DOT)%N then lit "dot" else lit "dash")
      (filter (fun symbol => (symbol =? DOT)%N || (symbol =? DASH)%N)
         pattern)
  /\ Forall
       (fun s =>
          s = {| type := lit "gap";
                 duration := 200;
                 sequence_type := None;
                 value := None;
                 description := lit "Intra-letter gap" |}
          \/ (sequence_type s = Some seq_type /\ value s = Some val
              /\ (type s = lit "dot" /\ duration s = 200
                  \/ type s = lit "dash" /\ duration s = 600)))
       (_pattern_to_sequence pattern seq_type val).
Proof. apply pattern_loop_pulses. Qed.

(** ** Extra properties: the compiler on digit strings *)

Lemma digit_block (c : N) :
  is_digit c = true ->
  exists pattern,
    lookup MORSE_CODE [c] = Some pattern
    /\ sum_durations (_pattern_to_sequence pattern (lit "digit") [c])
       = 1800 + 400 * Z.abs (5 - Z.of_N (c - 48))
    /\ List.length (_pattern_to_sequence pattern (lit "digit") [c]) = 9%nat.
Proof.
  unfold is_digit. rewrite andb_true_iff, !N.leb_le. intros [L U].
  assert (c = 48 \/ c = 49 \/ c = 50 \/ c = 51 \/ c = 52 \/ c = 53
          \/ c = 54 \/ c = 55 \/ c = 56 \/ c = 57)%N as H by lia.
  repeat (destruct H as [-> | H];
          [eexists; split; [reflexivity | split; reflexivity]|]).
  subst c; eexists; split; [reflexivity | split; reflexivity].
Qed.

Lemma number_loop_measure (num : str) (sequence : list step) :
  forallb is_digit num = true ->
  exists sequence',
    number_loop (map (fun c => [c]) num) sequence = Return sequence'
    /\ sum_durations sequence'
       = sum_durations sequence
         + fold_right Z.add 0
             (map (fun c => 2400 + 400 * Z.abs (5 - Z.of_N (c - 48))) num)
    /\ List.length sequence'
       = (List.length sequence + 10 * List.length num)%nat.
Proof.
  revert sequence. induction num as [|c num IH]; intros sequence H.
  - exists sequence. cbn. repeat split; lia.
  - cbn [forallb] in H. apply andb_true_iff in H. destruct H as [Hc Hnum].
    destruct (digit_block c Hc) as (pattern & E & D & L).
    cbn [map number_loop]. unfold getitem. rewrite E. cbn [bind].
    destruct (IH (sequence
                  ++ _pattern_to_sequence pattern (lit "digit") [c]
                  ++ [ {| type := lit "gap";
                          duration := INTER_LETTER_GAP;
                          sequence_type := None;
                          value := None;
                          description :=
                            lit "Inter-letter gap after digit " ++ [c] |} ])
                Hnum) as (sequence' & R & S & N).
    exists sequence'. split; [exact R|].
    rewrite S, N, !sum_durations_app, !length_app, D, L.
    rewrite sum_durations_single. cbn [duration fold_right map List.length].
    unfold INTER_LETTER_GAP. split; lia.
Qed.

Lemma color_block {rt : Runtime} (col : str) :
  validate_color col = true ->
  exists first pattern,
    subscript0 (Some col) = Return first
    /\ getitem MORSE_CODE (upper first) = Return pattern
    /\ sum_durations (_pattern_to_sequence pattern (lit "color") [])
       = (if str_eqb col (lit "Red") then 1400 else 1800)
    /\ List.length (_pattern_to_sequence pattern (lit "color") [])
       = (if str_eqb col (lit "Blue") then 7 else 5)%nat.
Proof.
  intros V. apply validate_color_spec in V.
  destruct V as [-> | [-> | ->]]; do 2 eexists; repeat split.
Qed.

Lemma number_loop_blocks (num : str) (sequence : list step) :
  forallb is_digit num = true ->
  number_loop (map (fun c => [c]) num) sequence
  = Return
      (sequence
       ++ flat_map
            (fun c =>
               _pattern_to_sequence
                 match lookup MORSE_CODE [c] with
                 | Some pattern => pattern
                 | None => []
                 end (lit "digit") [c]
               ++ [ {| type := lit "gap";
                       duration := INTER_LETTER_GAP;
                       sequence_type := None;
                       value := None;
                       description :=
                         lit "Inter-letter gap after digit " ++ [c] |} ])
            num).
Proof.
  revert sequence. induction num as [|c num IH]; intros sequence H.
  - cbn. rewrite app_nil_r. reflexivity.
  - cbn [forallb] in H. apply andb_true_iff in H. destruct H as [Hc Hnum].
    destruct (MORSE_CODE_digit c Hc) as [pattern E].
    cbn [map number_loop flat_map]. unfold getitem. rewrite E. cbn [bind].
    rewrite (IH _ Hnum), <- !app_assoc. reflexivity.
Qed.

(** X3: for a valid colour and a non-empty number made of decimal
    digits, [calculate_transmission_sequence] returns the pulses of the
    colour's first letter, an inter-letter gap, then for each digit in
    order its pulses followed by an inter-letter gap, then the
    confirmation flash. *)
Theorem calculate_transmission_sequence_blocks {rt : Runtime}
    (c : controller) (col num : str) :
  current_color c = Some col ->
  validate_color col = true ->
  current_number c = Some num ->
  num <> [] ->
  forallb is_digit num = true ->
  exists letter rest color_pattern,
    col = letter :: rest
    /\ lookup MORSE_CODE [letter] = Some color_pattern
    /\ calculate_transmission_sequence c
       = Return
           (_pattern_to_sequence color_pattern (lit "color") []
            ++ [ {| type := lit "gap";
                    duration := 600;
                    sequence_type := None;
                    value := None;
                    description := lit "Inter-letter gap" |} ]
            ++ flat_map
                 (fun d =>
                    _pattern_to_sequence
                      match lookup MORSE_CODE [d] with
                      | Some pattern => pattern
                      | None => []
                      end (lit "digit") [d]
                    ++ [ {| type := lit "gap";
                            duration := 600;
                            sequence_type := None;
                            value := None;
                            description :=
                              lit "Inter-letter gap after digit " ++ [d] |} ])
                 num
            ++ [ {| type := lit "confirmation";
                    duration := 1000;
                    sequence_type := None;
                    value := None;
                    description := lit "Confirmation flash" |} ]).
Proof.
  intros Ec Vc En Nn Dn.
  assert (Tn : truthy (Some num) = true)
    by (destruct num; [contradiction | reflexivity]).
  pose proof (validate_color_truthy col Vc) as Tc.
  unfold calculate_transmission_sequence.
  rewrite Ec, En, Tc, Tn. cbn [negb orb iter].
  apply validate_color_spec in Vc.
  destruct Vc as [-> | [-> | ->]];
    do 3 eexists; (split; [reflexivity|]); (split; [reflexivity|]);
    cbn [subscript0 lit map list_ascii_of_string bind];
    match goal with
    | |- context [getitem MORSE_CODE ?k] =>
        let r := eval vm_compute in (getitem MORSE_CODE k) in
        change (getitem MORSE_CODE k) with r
    end;
    cbn [bind]; rewrite (number_loop_blocks num _ Dn); cbn [bind];
    rewrite <- !app_assoc; reflexivity.
Qed.

Lemma calculate_transmission_sequence_blocks_witness :
  exists sequence,
    calculate_transmission_sequence (rt := ascii_runtime)
      {| transmission_history := [];
         current_color := Some (lit "Red");
         current_number := Some (lit "05");
         is_transmitting := false |}
    = Return sequence
    /\ map type sequence
       = map lit
           [ "dot"; "gap"; "dash"; "gap"; "dot"; "gap";
             "dash"; "gap"; "dash"; "gap"; "dash"; "gap"; "dash"; "gap";
             "dash"; "gap";
             "dot"; "gap"; "dot"; "gap"; "dot"; "gap"; "dot"; "gap"; "dot";
             "gap"; "confirmation" ]%string.
Proof.
  destruct (calculate_transmission_sequence_blocks (rt := ascii_runtime)
              {| transmission_history := [];
                 current_color := Some (lit "Red");
                 current_number := Some (lit "05");
                 is_transmitting := false |} (lit "Red") (lit "05")
              eq_refl eq_refl eq_refl ltac:(discriminate) eq_refl)
    as (letter & rest & pattern & C & L & E).
  injection C as <- <-. injection L as <-.
  eexists. split; [exact E | reflexivity].
Defined.

(** X4: for a valid colour and a non-empty number made of decimal digits,
    with no transmission in progress, [prepare_transmission] succeeds and
    its [total_duration] is the sum over the sequence: 1400 ms for Red and
    1800 ms for Green or Blue, 1600 ms for the gap after the letter and the
    confirmation, and 2400 + 400 * |5 - d| ms for each digit d.  The
    sequence has 10 steps per digit, 2 more, and 5 for Red or Green, 7 for
    Blue. *)
Theorem prepare_transmission_total_duration {rt : Runtime}
    (c : controller) (col num : str) :
  current_color c = Some col ->
  validate_color col = true ->
  current_number c = Some num ->
  num <> [] ->
  forallb is_digit num = true ->
  is_transmitting c = false ->
  exists sequence,
    snd (prepare_transmission c)
    = Return [ (lit "success", PyBool true);
               (lit "message",
                PyStr (lit "Transmitting " ++ col ++ lit " " ++ num
                       ++ lit "..."));
               (lit "status", PyStr (lit "transmitting"));
               (lit "color", PyStr col);
               (lit "number", PyStr num);
               (lit "sequence", PySequence sequence);
               (lit "total_duration", PyInt (sum_durations sequence)) ]
    /\ sum_durations sequence
       = (if str_eqb col (lit "Red") then 1400 else 1800) + 1600
         + fold_right Z.add 0
             (map (fun ch => 2400 + 400 * Z.abs (5 - Z.of_N (ch - 48))) num)
    /\ List.length sequence
       = ((if str_eqb col (lit "Blue") then 7 else 5) + 2
          + 10 * List.length num)%nat.
Proof.
  intros Ec Vc En Nn Dn Ft.
  assert (Tn : truthy (Some num) = true)
    by (destruct num; [contradiction | reflexivity]).
  pose proof (validate_color_truthy col Vc) as Tc.
  destruct (color_block col Vc) as (first & pattern & E0 & Ep & Dc & Lc).
  unfold prepare_transmission, calculate_transmission_sequence.
  rewrite Ec, En, Ft, Tc, Tn, E0. cbn [negb orb snd iter bind format of_attr].
  rewrite Ep. cbn [bind].
  match goal with
  | |- context [number_loop ?d ?s] =>
      destruct (number_loop_measure num s Dn) as (sequence' & R & S & N)
  end.
  rewrite R. cbn [bind]. eexists. split; [reflexivity|].
  rewrite sum_durations_app, length_app, S, N, sum_durations_app, length_app.
  rewrite Dc, Lc, !sum_durations_single.
  cbn [duration List.length]. unfold INTER_LETTER_GAP, CONFIRMATION_FLASH.
  split; lia.
Qed.

Lemma prepare_transmission_total_duration_witness :
  exists sequence,
    lookup
      match snd (prepare_transmission (rt := ascii_runtime)
                   {| transmission_history := [];
                      current_color := Some (lit "Green");
                      current_number := Some (lit "42");
                      is_transmitting := false |}) with
      | Return d => d
      | Raise _ => []
      end (lit "sequence")
    = Some (PySequence sequence)
    /\ sum_durations sequence = 9800
    /\ List.length sequence = 27%nat.
Proof.
  destruct (prepare_transmission_total_duration (rt := ascii_runtime)
              {| transmission_history := [];
                 current_color := Some (lit "Green");
                 current_number := Some (lit "42");
                 is_transmitting := false |} (lit "Green") (lit "42")
              eq_refl eq_refl eq_refl ltac:(discriminate) eq_refl eq_refl)
    as (sequence & E & S & L).
  exists sequence. rewrite E. split; [reflexivity|]. split; [exact S | exact L].
Defined.

(** ** Extra properties: accepted numbers that cannot be encoded *)

Lemma skip_space_int_char (l : str) :
  Forall (fun c => int_char c = true) (skip_space l) ->
  Forall (fun c => int_char c = true) l.
Proof.
  induction l as [|c l IH]; cbn [skip_space]; [auto|].
  destruct (Py_ISSPACE c) eqn:E; [|auto].
  intros H. constructor; [unfold int_char; rewrite E; reflexivity | auto].
Qed.

Lemma skip_space_nil (l : str) :
  skip_space l = [] -> Forall (fun c => int_char c = true) l.
Proof.
  intros H. apply skip_space_int_char. rewrite H. constructor.
Qed.

Lemma read_sign_int_char (l body : str) (negative : bool) :
  read_sign l = (negative, body) ->
  Forall (fun c => int_char c = true) body ->
  Forall (fun c => int_char c = true) l.
Proof.
  destruct l as [|c l]; cbn [read_sign]; [intros [= <- <-]; auto|].
  destruct (c =? 43)%N eqn:P; [|destruct (c =? 45)%N eqn:M].
  - intros [= <- <-] H. constructor; [|exact H].
    unfold int_char. rewrite P, !orb_true_r. reflexivity.
  - intros [= <- <-] H. constructor; [|exact H].
    unfold int_char. rewrite M, !orb_true_r. reflexivity.
  - intros [= <- <-] H. exact H.
Qed.

Lemma scan_digits_int_char (l : str) :
  forall prev acc digits v digits' rest,
    scan_digits prev acc digits l = Some (v, digits', rest) ->
    Forall (fun c => int_char c = true) rest ->
    Forall (fun c => int_char c = true) l.
Proof.
  induction l as [|c l IH]; intros prev acc digits v digits' rest;
    cbn [scan_digits].
  - destruct prev; [discriminate | intros [= <- <- <-]; auto].
  - destruct (is_digit c) eqn:D; [|destruct (c =? 95)%N eqn:U].
    + intros H R. constructor; [|exact (IH _ _ _ _ _ _ H R)].
      unfold int_char. rewrite D, !orb_true_r. reflexivity.
    + destruct prev; [discriminate|].
      intros H R. constructor; [|exact (IH _ _ _ _ _ _ H R)].
      unfold int_char. rewrite U, !orb_true_r. reflexivity.
    + destruct prev; [discriminate|]. intros [= <- <- <-]. auto.
Qed.

Lemma int_int_char {rt : Runtime} (s : str) (v : Z) :
  int s = Return v ->
  Forall (fun c => int_char c = true) (transform_decimal_and_space s).
Proof.
  unfold int.
  destruct (read_sign (skip_space (transform_decimal_and_space s)))
    as [negative body] eqn:S.
  intros H. apply skip_space_int_char.
  apply (read_sign_int_char _ _ _ S).
  destruct body as [|c body]; [discriminate|].
  destruct (c =? 95)%N; [discriminate|].
  destruct (scan_digits false 0 0 (c :: body)) as [[[v' digits] rest]|] eqn:C;
    [|discriminate].
  apply (scan_digits_int_char _ _ _ _ _ _ _ C).
  destruct digits; [discriminate|].
  destruct (skip_space rest) eqn:R; [|discriminate].
  apply skip_space_nil, R.
Qed.

Lemma transform_int_char {rt : Runtime} (s : str) :
  Forall (fun c => int_char c = true) (transform_decimal_and_space s) ->
  Forall (fun c => (c < 127)%N -> int_char c = true) s.
Proof.
  induction s as [|c s IH]; cbn [transform_decimal_and_space]; [auto|].
  destruct (N.ltb_spec c 127) as [Lt|Ge].
  - intros F. inversion F; subst. constructor; auto.
  - destruct (unicode_isspace c).
    + intros F. inversion F; subst. constructor; [intros; lia | auto].
    + destruct (unicode_todecimal c).
      * intros F. inversion F; subst. constructor; [intros; lia | auto].
      * intros F. inversion F; subst. discriminate.
Qed.

Lemma lookup_In {A} (d : list (str * A)) (k : str) (v : A) :
  lookup d k = Some v -> In (k, v) d.
Proof.
  induction d as [|[k' v'] d IH]; cbn [lookup]; [discriminate|].
  destruct (str_eqb k' k) eqn:E.
  - intros [= ->]. apply str_eqb_eq in E. subst. left; reflexivity.
  - intros H; right; auto.
Qed.

Lemma MORSE_CODE_keys (k : N) (pattern : str) :
  lookup MORSE_CODE [k] = Some pattern ->
  (k = 82 \/ k = 71 \/ k = 66)%N \/ is_digit k = true.
Proof.
  intros H. apply lookup_In in H. unfold MORSE_CODE in H. cbn [In] in H.
  repeat (destruct H as [H | H];
          [injection H as <- _; first [left; lia | right; reflexivity]|]).
  destruct H.
Qed.

Lemma validate_number_keys {rt : Runtime} (num : str) (k : N) :
  validate_number num = true ->
  In k num ->
  is_digit k = false ->
  lookup MORSE_CODE [k] = None.
Proof.
  intros V I D. apply validate_number_spec in V. destruct V as (v & E & _).
  pose proof (transform_int_char num (int_int_char num v E)) as F.
  rewrite Forall_forall in F. specialize (F k I).
  destruct (lookup MORSE_CODE [k]) as [pattern|] eqn:L; [|reflexivity].
  destruct (MORSE_CODE_keys k pattern L) as [[-> | [-> | ->]] | D'];
    [discriminate (F eq_refl) .. | congruence].
Qed.

Lemma number_loop_first_bad (pre : str) (k : N) (post : str)
    (sequence : list step) :
  forallb is_digit pre = true ->
  lookup MORSE_CODE [k] = None ->
  number_loop (map (fun c => [c]) (pre ++ k :: post)) sequence
  = Raise (KeyError [k]).
Proof.
  revert sequence. induction pre as [|c pre IH]; intros sequence D L.
  - cbn [app map number_loop]. unfold getitem. rewrite L. reflexivity.
  - cbn [forallb] in D. apply andb_true_iff in D. destruct D as [Dc D].
    destruct (MORSE_CODE_digit c Dc) as [pattern E].
    cbn [app map number_loop]. unfold getitem. rewrite E. cbn [bind].
    apply IH; assumption.
Qed.

Lemma first_non_digit (num : str) :
  forallb is_digit num = false ->
  exists pre k post,
    num = pre ++ k :: post /\ forallb is_digit pre = true
    /\ is_digit k = false.
Proof.
  induction num as [|c num IH]; cbn [forallb]; [discriminate|].
  destruct (is_digit c) eqn:D.
  - intros H. destruct (IH H) as (pre & k & post & -> & P & K).
    exists (c :: pre), k, post. cbn [forallb app]. rewrite D. auto.
  - intros _. exists [], c, num. auto.
Qed.

(** X5: in a state whose selection the setters accepted, with colour and
    number set and no transmission in progress, [prepare_transmission]
    returns a result when the number is made of decimal digits, and
    otherwise raises [KeyError] on the first character of the number that
    is not one. *)
Theorem prepare_transmission_raises_iff {rt : Runtime}
    (c : controller) (col num : str) :
  selection_valid c ->
  current_color c = Some col ->
  current_number c = Some num ->
  is_transmitting c = false ->
  (forallb is_digit num = true
   /\ exists d, snd (prepare_transmission c) = Return d)
  \/ (exists pre k post,
        num = pre ++ k :: post
        /\ forallb is_digit pre = true
        /\ is_digit k = false
        /\ snd (prepare_transmission c) = Raise (KeyError [k])).
Proof.
  intros [Vc Vn] Ec En Ft.
  pose proof (Vc col Ec) as Hc. pose proof (Vn num En) as Hn.
  destruct (forallb is_digit num) eqn:D.
  - left. split; [reflexivity|].
    destruct (calculate_transmission_sequence_returns c) as [sq E].
    + intros col' E'. rewrite Ec in E'. injection E' as <-. exact Hc.
    + intros num' E'. rewrite En in E'. injection E' as <-. exact D.
    + unfold prepare_transmission.
      destruct (negb (truthy (current_color c))); [eexists; reflexivity|].
      destruct (negb (truthy (current_number c))); [eexists; reflexivity|].
      rewrite Ft. cbn [snd]. rewrite E. eexists; reflexivity.
  - right. destruct (first_non_digit num D) as (pre & k & post & -> & P & K).
    exists pre, k, post. repeat split; auto.
    assert (L : lookup MORSE_CODE [k] = None).
    { apply (validate_number_keys _ k Hn); [|exact K].
      apply in_or_app; right; left; reflexivity. }
    destruct (color_block col Hc) as (first & pattern & E0 & Ep & _).
    unfold prepare_transmission, calculate_transmission_sequence.
    rewrite Ec, En, Ft, (validate_color_truthy col Hc),
      (validate_number_truthy _ Hn), E0.
    cbn [negb orb snd iter bind]. rewrite Ep. cbn [bind].
    rewrite (number_loop_first_bad pre k post _ P L). reflexivity.
Qed.

Lemma prepare_transmission_raises_iff_witness :
  exists k,
    snd (prepare_transmission (rt := ascii_runtime)
           {| transmission_history := [];
              current_color := Some (lit "Red");
              current_number := Some (lit "1_0");
              is_transmitting := false |})
    = Raise (KeyError [k]).
Proof.
  destruct (prepare_transmission_raises_iff (rt := ascii_runtime)
              {| transmission_history := [];
                 current_color := Some (lit "Red");
                 current_number := Some (lit "1_0");
                 is_transmitting := false |} (lit "Red") (lit "1_0")
              ltac:(split; intros s E; injection E as <-; reflexivity)
              eq_refl eq_refl eq_refl)
    as [[D _] | (pre & k & post & _ & _ & _ & E)].
  - discriminate D.
  - exists k. exact E.
Defined.

Lemma run_two {rt : Runtime} (o1 o2 : operation) (c : controller) :
  run [o1; o2] c = next o2 (next o1 c).
Proof. reflexivity. Qed.

Lemma select_state {rt : Runtime} (c : controller) (col num : str) :
  validate_color col = true ->
  validate_number num = true ->
  run [SetColor col; SetNumber num] c
  = {| transmission_history := transmission_history c;
       current_color := Some col;
       current_number := Some num;
       is_transmitting := is_transmitting c |}.
Proof.
  intros Vc Vn. rewrite run_two, !next_cases, set_number_state,
    set_color_state, Vc, Vn. reflexivity.
Qed.

Lemma int_prefix {rt : Runtime} (k d : N) (s : str) :
  (k = 43 \/ k = 32)%N ->
  is_digit d = true ->
  int (k :: d :: s) = int (d :: s).
Proof.
  unfold is_digit. rewrite andb_true_iff, !N.leb_le. intros K [L U].
  assert (D127 : (d <? 127)%N = true) by (apply N.ltb_lt; lia).
  assert (Dsp : Py_ISSPACE d = false).
  { unfold Py_ISSPACE.
    destruct (N.eqb_spec d 32); [lia|].
    destruct (N.leb_spec 9 d), (N.leb_spec d 13); try reflexivity; lia. }
  assert (Dp : (d =? 43)%N = false) by (apply N.eqb_neq; lia).
  assert (Dm : (d =? 45)%N = false) by (apply N.eqb_neq; lia).
  unfold int. destruct K as [-> | ->];
    cbn [transform_decimal_and_space]; rewrite D127;
    change (43 <? 127)%N with true; change (32 <? 127)%N with true;
    cbn [skip_space read_sign]; rewrite Dsp;
    try change (Py_ISSPACE 43) with false;
    try change (Py_ISSPACE 32) with true;
    cbn [skip_space read_sign]; rewrite ?Dsp, ?Dp, ?Dm; reflexivity.
Qed.

(** X6: whenever [set_number] accepts a string that starts with a digit,
    it also accepts that string with a plus sign or a blank in front, and
    stores it as given; after a valid [set_color], [prepare_transmission]
    then raises [KeyError] on that first character. *)
Theorem prefixed_number_accepted_then_raises {rt : Runtime}
    (c : controller) (col : str) (k d : N) (s : str) :
  reachable c ->
  validate_color col = true ->
  (k = 43 \/ k = 32)%N ->
  is_digit d = true ->
  validate_number (d :: s) = true ->
  let c' := run [SetColor col; SetNumber (k :: d :: s)] c in
  current_number c' = Some (k :: d :: s)
  /\ snd (prepare_transmission c') = Raise (KeyError [k]).
Proof.
  intros R Vc K D Vd c'.
  assert (Vn : validate_number (k :: d :: s) = true).
  { unfold validate_number. rewrite (int_prefix k d s K D). exact Vd. }
  pose proof (reachable_not_transmitting c R) as Ft.
  subst c'. rewrite (select_state c col _ Vc Vn), Ft.
  split; [reflexivity|].
  assert (L : lookup MORSE_CODE [k] = None)
    by (destruct K as [-> | ->]; reflexivity).
  destruct (color_block col Vc) as (first & pattern & E0 & Ep & _).
  unfold prepare_transmission, calculate_transmission_sequence.
  cbn [current_color current_number is_transmitting].
  rewrite (validate_color_truthy col Vc), E0.
  cbn [truthy negb orb snd iter bind]. rewrite Ep. cbn [bind].
  rewrite (number_loop_first_bad [] k (d :: s) _ eq_refl L). reflexivity.
Qed.

Lemma prefixed_number_accepted_then_raises_witness :
  snd (prepare_transmission (rt := ascii_runtime)
         (run (rt := ascii_runtime)
            [SetColor (lit "Green"); SetNumber (lit " 42")] init))
  = Raise (KeyError (lit " ")).
Proof.
  refine (proj2 (prefixed_number_accepted_then_raises (rt := ascii_runtime)
                   init (lit "Green") 32%N 52%N (lit "2")
                   reachable_init eq_refl (or_intror eq_refl) eq_refl
                   eq_refl)).
Defined.

(** ** Extra properties: selecting and transmitting *)

Lemma decimal_accepted {rt : Runtime} (n : N) :
  (n <= 100)%N ->
  int (decimal n) = Return (Z.of_N n)
  /\ validate_number (decimal n) = true
  /\ forallb is_digit (decimal n) = true.
Proof.
  intros H.
  assert (A : forallb
                (fun k =>
                   match int (decimal (N.of_nat k)) with
                   | Return v => (v =? Z.of_N (N.of_nat k))
                   | Raise _ => false
                   end
                   && validate_number (decimal (N.of_nat k))
                   && forallb is_digit (decimal (N.of_nat k)))
                (seq 0 101) = true) by (vm_compute; reflexivity).
  rewrite forallb_forall in A.
  assert (I : In (N.to_nat n) (seq 0 101)) by (apply in_seq; lia).
  specialize (A _ I). rewrite N2Nat.id in A.
  apply andb_true_iff in A. destruct A as [A D].
  apply andb_true_iff in A. destruct A as [A V].
  destruct (int (decimal n)) as [v|]; [|discriminate].
  apply Z.eqb_eq in A. subst v. auto.
Qed.

(** X7: from any reachable state, [set_color] with a valid colour and
    [set_number] with the decimal numeral of any n from 0 to 100 store
    both, [int] reads the numeral back as n, [get_status] reports
    [ready_to_send], and [prepare_transmission] succeeds with status
    [transmitting]. *)
Theorem select_and_prepare {rt : Runtime}
    (c : controller) (col : str) (n : N) :
  reachable c ->
  validate_color col = true ->
  (n <= 100)%N ->
  let c' := run [SetColor col; SetNumber (decimal n)] c in
  current_color c' = Some col
  /\ current_number c' = Some (decimal n)
  /\ int (decimal n) = Return (Z.of_N n)
  /\ lookup (snd (get_status c')) (lit "ready_to_send") = Some (PyBool true)
  /\ exists sequence total,
       snd (prepare_transmission c')
       = Return [ (lit "success", PyBool true);
                  (lit "message",
                   PyStr (lit "Transmitting " ++ col ++ lit " " ++ decimal n
                          ++ lit "..."));
                  (lit "status", PyStr (lit "transmitting"));
                  (lit "color", PyStr col);
                  (lit "number", PyStr (decimal n));
                  (lit "sequence", PySequence sequence);
                  (lit "total_duration", PyInt total) ].
Proof.
  intros R Vc Hn c'.
  destruct (decimal_accepted n Hn) as (I & Vn & D).
  pose proof (reachable_not_transmitting c R) as Ft.
  pose proof (validate_color_truthy col Vc) as Tc.
  pose proof (validate_number_truthy _ Vn) as Tn.
  subst c'. rewrite (select_state c col (decimal n) Vc Vn), Ft.
  cbn [current_color current_number]. repeat split; try assumption.
  - cbn. cbn in Tc, Tn. rewrite Tc, Tn. reflexivity.
  - destruct (calculate_transmission_sequence_returns
                {| transmission_history := transmission_history c;
                   current_color := Some col;
                   current_number := Some (decimal n);
                   is_transmitting := false |}) as [sq E].
    + intros col' [= <-]. exact Vc.
    + intros num' [= <-]. exact D.
    + unfold prepare_transmission.
      cbn [current_color current_number is_transmitting].
      rewrite Tc, Tn. cbn [negb snd]. rewrite E. cbn [bind format of_attr].
      eexists _, _. reflexivity.
Qed.

Lemma select_and_prepare_witness :
  current_number
    (run (rt := ascii_runtime)
       [SetColor (lit "Blue"); SetNumber (lit "100")] init)
  = Some (lit "100")
  /\ lookup
       (snd (get_status
               (run (rt := ascii_runtime)
                  [SetColor (lit "Blue"); SetNumber (lit "100")] init)))
       (lit "ready_to_send")
     = Some (PyBool true).
Proof.
  destruct (select_and_prepare (rt := ascii_runtime) init (lit "Blue") 100%N
              reachable_init eq_refl ltac:(discriminate))
    as (_ & N & _ & S & _).
  split; [exact N | exact S].
Defined.

Lemma next_history_records {rt : Runtime} (o : operation) (c : controller) :
  selection_valid c ->
  Forall (fun r => validate_color (color r) = true
                   /\ validate_number (number r) = true
                   /\ message r = color r ++ lit " " ++ number r ++ lit " sent")
    (transmission_history c) ->
  Forall (fun r => validate_color (color r) = true
                   /\ validate_number (number r) = true
                   /\ message r = color r ++ lit " " ++ number r ++ lit " sent")
    (transmission_history (next o c)).
Proof.
  intros [Vc Vn] F. rewrite next_cases.
  destruct o as [col|num| | |now|]; auto.
  - rewrite set_color_state. destruct (validate_color col); auto.
  - rewrite set_number_state. destruct (validate_number num); auto.
  - rewrite complete_transmission_state.
    destruct (current_color c) as [col|] eqn:Ec; [|exact F].
    destruct (current_number c) as [num|] eqn:En;
      [|rewrite andb_false_r; exact F].
    destruct (truthy (Some col) && truthy (Some num)); [|exact F].
    cbn [transmission_history firstn format].
    constructor;
      [cbn [color number message]; repeat split;
       [exact (Vc col eq_refl) | exact (Vn num eq_refl)]|].
    apply Forall_forall. intros r I. rewrite Forall_forall in F.
    apply F. rewrite <- (firstn_skipn 4 (transmission_history c)).
    apply in_or_app. left; exact I.
Qed.

(** X8: in every reachable state the colour is unset or one of Red, Green
    and Blue; the number is unset or a non-empty string that [int] reads
    as a value from 0 to 100; and every record of the history holds such a
    colour and such a number, with the message made of the two and the
    word sent. *)
Theorem stored_data_invariant {rt : Runtime} (c : controller) :
  reachable c ->
  (current_color c = None \/ current_color c = Some (lit "Red")
   \/ current_color c = Some (lit "Green")
   \/ current_color c = Some (lit "Blue"))
  /\ (current_number c = None
      \/ exists num v,
           current_number c = Some num /\ num <> []
           /\ int num = Return v /\ 0 <= v <= 100)
  /\ Forall
       (fun r =>
          (color r = lit "Red" \/ color r = lit "Green"
           \/ color r = lit "Blue")
          /\ (exists v, int (number r) = Return v /\ 0 <= v <= 100)
          /\ message r = color r ++ lit " " ++ number r ++ lit " sent")
       (transmission_history c).
Proof.
  intros R.
  assert (F : Forall
                (fun r => validate_color (color r) = true
                          /\ validate_number (number r) = true
                          /\ message r
                             = color r ++ lit " " ++ number r ++ lit " sent")
                (transmission_history c)).
  { induction R as [|o c R IH]; [constructor|].
    apply next_history_records;
      [apply reachable_selection_valid; exact R | exact IH]. }
  destruct (reachable_selection_valid c R) as [Vc Vn]. repeat split.
  - destruct (current_color c) as [col|]; [|left; reflexivity].
    right. destruct (proj1 (validate_color_spec col) (Vc col eq_refl))
      as [-> | [-> | ->]]; auto.
  - destruct (current_number c) as [num|]; [|left; reflexivity].
    right. pose proof (Vn num eq_refl) as V.
    destruct (proj1 (validate_number_spec num) V) as (v & E & B).
    exists num, v. repeat split; try assumption; try lia.
    intros ->. discriminate V.
  - apply Forall_forall. intros r I. rewrite Forall_forall in F.
    destruct (F r I) as (Hc & Hn & Hm). repeat split.
    + apply validate_color_spec, Hc.
    + apply validate_number_spec in Hn. destruct Hn as (v & E & B).
      exists v; auto.
    + exact Hm.
Qed.

Lemma stored_data_invariant_witness :
  Forall
    (fun r =>
       (color r = lit "Red" \/ color r = lit "Green" \/ color r = lit "Blue")
       /\ (exists v,
             int (rt := ascii_runtime) (number r) = Return v
             /\ 0 <= v <= 100)
       /\ message r = color r ++ lit " " ++ number r ++ lit " sent")
    (transmission_history
       (run (rt := ascii_runtime)
          (transmit (lit "Red", lit "+7", 1%float)) init)).
Proof.
  exact (proj2 (proj2 (stored_data_invariant (rt := ascii_runtime) _
                         (reachable_run _)))).
Defined.

Lemma firstn_app_firstn {A} (h : list A) (a : list A) :
  forall n m, (n <= List.length a + m)%nat ->
    firstn n (a ++ firstn m h) = firstn n (a ++ h).
Proof.
  induction a as [|x a IH]; intros n m H; cbn [app List.length] in *.
  - rewrite firstn_firstn. f_equal. lia.
  - destruct n as [|n]; [reflexivity|]. cbn [firstn]. f_equal.
    apply IH. lia.
Qed.

Lemma transmit_state {rt : Runtime} (c : controller)
    (col num : str) (now : float) :
  validate_color col = true ->
  validate_number num = true ->
  run (transmit (col, num, now)) c
  = {| transmission_history :=
         {| color := col;
            number := num;
            timestamp := now;
            message := col ++ lit " " ++ num ++ lit " sent" |}
         :: firstn 4 (transmission_history c);
       current_color := None;
       current_number := None;
       is_transmitting := false |}.
Proof.
  intros Vc Vn. change (transmit (col, num, now))
    with ([SetColor col; SetNumber num]
          ++ [PrepareTransmission; CompleteTransmission now]).
  rewrite run_app, (select_state c col num Vc Vn), run_two, !next_cases.
  rewrite complete_transmission_state.
  cbn [current_color current_number transmission_history].
  rewrite (validate_color_truthy col Vc), (validate_number_truthy num Vn).
  reflexivity.
Qed.

(** X9: after a series of transmissions, each with a valid colour and an
    accepted number, the history is the five newest records, newest first:
    those of the series in reverse order, followed by what the history
    held before. *)
Theorem history_keeps_five_newest {rt : Runtime}
    (jobs : list (str * str * float)) (c : controller) :
  (List.length (transmission_history c) <= 5)%nat ->
  (forall col num now,
     In (col, num, now) jobs ->
     validate_color col = true /\ validate_number num = true) ->
  transmission_history (run (flat_map transmit jobs) c)
  = firstn 5
      (rev (map (fun '(col, num, now) =>
                   {| color := col;
                      number := num;
                      timestamp := now;
                      message := col ++ lit " " ++ num ++ lit " sent" |})
              jobs)
       ++ transmission_history c).
Proof.
  revert c. induction jobs as [|[[col num] now] jobs IH]; intros c L V.
  - cbn [flat_map map rev app]. change (run [] c) with c.
    rewrite firstn_all2; [reflexivity | exact L].
  - destruct (V col num now (or_introl eq_refl)) as [Vc Vn].
    cbn [flat_map]. rewrite run_app, (transmit_state c col num now Vc Vn).
    rewrite IH.
    + cbn [transmission_history map rev].
      rewrite <- app_assoc. cbn [app].
      match goal with
      | |- firstn 5 (?a ++ ?r :: firstn 4 ?h) = _ =>
          change (a ++ r :: firstn 4 h) with (a ++ [r] ++ firstn 4 h);
          rewrite (app_assoc a [r] (firstn 4 h));
          rewrite (firstn_app_firstn h (a ++ [r]) 5 4);
          [rewrite <- app_assoc; reflexivity | rewrite length_app; cbn; lia]
      end.
    + cbn [transmission_history List.length]. rewrite length_firstn. lia.
    + intros col' num' now' I. apply (V col' num' now'). right; exact I.
Qed.

Lemma history_keeps_five_newest_witness :
  map message
    (transmission_history
       (run (rt := ascii_runtime)
          (flat_map transmit
             [ (lit "Red", lit "1", 1%float);
               (lit "Green", lit "23", 2%float);
               (lit "Blue", lit "100", 3%float);
               (lit "Red", lit "4", 4%float);
               (lit "Green", lit "5", 5%float);
               (lit "Blue", lit "6", 6%float) ])
          init))
  = [ lit "Blue 6 sent"; lit "Green 5 sent"; lit "Red 4 sent";
      lit "Blue 100 sent"; lit "Green 23 sent" ].
Proof.
  rewrite (history_keeps_five_newest (rt := ascii_runtime)).
  - reflexivity.
  - cbn; lia.
  - intros col num now I. cbn [In] in I.
    repeat (destruct I as [I | I];
            [injection I as <- <- _; split; reflexivity|]).
    destruct I.
Defined.


(** X11: right after [complete_transmission], whether it succeeded or
    not, a second [complete_transmission] fails and changes nothing, and
    [prepare_transmission] fails for want of a colour or of a number. *)
Theorem nothing_left_after_complete {rt : Runtime}
    (c : controller) (now now' : float) :
  let c1 := fst (complete_transmission now c) in
  complete_transmission now' c1
  = (c1, [ (lit "success", PyBool false);
           (lit "message", PyStr (lit "No transmission to complete"));
           (lit "status", PyStr (lit "error")) ])
  /\ exists m,
       prepare_transmission c1
       = (c1, Return [ (lit "success", PyBool false);
                       (lit "message", PyStr m);
                       (lit "status", PyStr (lit "error")) ])
       /\ (m = lit "No color selected" \/ m = lit "No number entered").
Proof.
  intros c1. subst c1. rewrite complete_transmission_state.
  destruct (truthy (current_color c)) eqn:Tc;
    [destruct (truthy (current_number c)) eqn:Tn|]; cbn [andb].
  - split; [apply complete_transmission_failure; left; reflexivity|].
    eexists; split; [reflexivity | left; reflexivity].
  - split; [apply complete_transmission_failure; right; exact Tn|].
    unfold prepare_transmission. rewrite Tc, Tn. cbn [negb].
    eexists; split; [reflexivity | right; reflexivity].
  - split; [apply complete_transmission_failure; left; exact Tc|].
    unfold prepare_transmission. rewrite Tc. cbn [negb].
    eexists; split; [reflexivity | left; reflexivity].
Qed.

(** X12: [set_color] and [set_number] leave the same controller in
    either order, whether each of them accepts its argument or not. *)
Theorem setters_commute {rt : Runtime} (c : controller) (col num : str) :
  fst (set_number num (fst (set_color col c)))
  = fst (set_color col (fst (set_number num c))).
Proof.
  rewrite !set_number_state, !set_color_state.
  destruct (validate_color col), (validate_number num); reflexivity.
Qed.

(** ** Extra properties: the text encoder and the command line *)

Lemma generate_loop_app (x y : list str) (acc : str) :
  generate_loop (x ++ y) acc = generate_loop y (generate_loop x acc).
Proof.
  revert acc.
  induction x as [|c x IH]; intros acc; [reflexivity | apply IH].
Qed.

Lemma generate_loop_acc (chars : list str) (acc : str) :
  generate_loop chars acc = acc ++ generate_loop chars [].
Proof.
  revert acc. induction chars as [|c chars IH]; intros acc; cbn [generate_loop].
  - rewrite app_nil_r; reflexivity.
  - destruct (lookup MORSE_CODE c) as [p|]; [|apply IH].
    rewrite (IH (acc ++ p)), (IH ([] ++ p)). cbn [app]. apply eq_sym, app_assoc.
Qed.

Lemma MORSE_CODE_symbols (k p : str) :
  lookup MORSE_CODE k = Some p -> Forall (fun s => s = DOT \/ s = DASH) p.
Proof.
  intros H. apply lookup_In in H.
  assert (F : Forall (fun e => Forall (fun s => s = DOT \/ s = DASH) (snd e))
                MORSE_CODE).
  { unfold MORSE_CODE.
    repeat (apply Forall_cons;
            [cbn [snd];
             repeat (apply Forall_cons;
                     [first [left; reflexivity | right; reflexivity]|]);
             apply Forall_nil|]).
    apply Forall_nil. }
  rewrite Forall_forall in F. exact (F _ H).
Qed.

(** X13: [generate_morse_pattern] of a text in two parts is the pattern
    of the first part followed by that of the second, and a pattern holds
    nothing but dots and dashes. *)
Theorem generate_morse_pattern_app {rt : Runtime} (a b : str) :
  generate_morse_pattern (a ++ b)
  = generate_morse_pattern a ++ generate_morse_pattern b
  /\ Forall (fun s => s = DOT \/ s = DASH) (generate_morse_pattern a).
Proof.
  unfold generate_morse_pattern, upper. split.
  - rewrite flat_map_app, map_app, generate_loop_app. apply generate_loop_acc.
  - generalize (map (fun c => [c]) (flat_map upper_char a)) as chars.
    assert (G : forall chars acc, Forall (fun s => s = DOT \/ s = DASH) acc ->
              Forall (fun s => s = DOT \/ s = DASH) (generate_loop chars acc)).
    { induction chars as [|c chars IH]; intros acc Ha; cbn [generate_loop];
        [exact Ha|].
      apply IH. destruct (lookup MORSE_CODE c) as [p|] eqn:E; [|exact Ha].
      apply Forall_app; split; [exact Ha | exact (MORSE_CODE_symbols c p E)]. }
    intros chars. apply G. constructor.
Qed.

(** X14: [generate_morse_pattern] drops the characters without an entry
    in the table: when no character of the upper-cased text has one, the
    pattern is empty. *)
Theorem generate_morse_pattern_unknown {rt : Runtime} (text : str) :
  (forall k, In k (upper text) -> lookup MORSE_CODE [k] = None) ->
  generate_morse_pattern text = [].
Proof.
  unfold generate_morse_pattern. generalize (upper text) as u.
  induction u as [|k u IH]; intros H; [reflexivity|].
  cbn [map generate_loop]. rewrite (H k (or_introl eq_refl)).
  apply IH. intros k' Hk. apply H. right; exact Hk.
Qed.

Lemma generate_morse_pattern_unknown_witness :
  generate_morse_pattern (rt := ascii_runtime) (lit "Hello!") = [].
Proof.
  apply (generate_morse_pattern_unknown (rt := ascii_runtime)).
  intros k H. vm_compute in H.
  repeat (destruct H as [<- | H]; [reflexivity|]). destruct H.
Defined.

(** X15: [main] starts from a new controller on every run, so whatever
    the arguments it never prints a result with status [transmitting] or
    [completed], and what it prints does not depend on how exceptions are
    rendered: the handler is never entered. *)
Theorem main_never_transmits {rt : Runtime} (exception_str : exn -> str)
    (argv : list str) (now : float) :
  (forall other, main other argv now = main exception_str argv now)
  /\ (forall d,
        main exception_str argv now = Json d ->
        lookup d (lit "status") <> Some (PyStr (lit "transmitting"))
        /\ lookup d (lit "status") <> Some (PyStr (lit "completed"))).
Proof.
  unfold main. destruct (List.length argv <? 2)%nat;
    [split; [reflexivity | discriminate]|].
  cbv zeta.
  destruct (str_eqb (nth 1 argv []) (lit "set_color")
            && (2 <? List.length argv)%nat).
  { split; [reflexivity|]. intros d [= <-]. unfold set_color.
    destruct (validate_color (nth 2 argv [])); cbn; split; discriminate. }
  destruct (str_eqb (nth 1 argv []) (lit "set_number")
            && (2 <? List.length argv)%nat).
  { split; [reflexivity|]. intros d [= <-]. unfold set_number.
    destruct (validate_number (nth 2 argv [])); cbn; split; discriminate. }
  destruct (str_eqb (nth 1 argv []) (lit "prepare")).
  { split; [reflexivity|]. intros d [= <-]. cbn; split; discriminate. }
  destruct (str_eqb (nth 1 argv []) (lit "complete")).
  { split; [reflexivity|]. intros d [= <-]. cbn; split; discriminate. }
  destruct (str_eqb (nth 1 argv []) (lit "clear")).
  { split; [reflexivity|]. intros d [= <-]. cbn; split; discriminate. }
  destruct (str_eqb (nth 1 argv []) (lit "status")).
  { split; [reflexivity|]. intros d [= <-]. cbn; split; discriminate. }
  split; [reflexivity|]. intros d [= <-]. cbn; split; discriminate.
Qed.

Lemma main_never_transmits_witness :
  main (rt := ascii_runtime) (fun _ => [])
    [lit "fiber_tester.py"; lit "prepare"] 1%float
  = Json [ (lit "success", PyBool false);
           (lit "message", PyStr (lit "No color selected"));
           (lit "status", PyStr (lit "error")) ]
  /\ lookup [ (lit "success", PyBool false);
              (lit "message", PyStr (lit "No color selected"));
              (lit "status", PyStr (lit "error")) ] (lit "status")
     <> Some (PyStr (lit "transmitting")).
Proof.
  split; [reflexivity|].
  exact (proj1 (proj2 (main_never_transmits (rt := ascii_runtime)
                         (fun _ => [])
                         [lit "fiber_tester.py"; lit "prepare"] 1%float)
                  _ eq_refl)).
Defined.
